(** * Subscription tiers, feature gating and daily usage limits

    A shallow embedding of the subscription core of the backend:

    - [services/subscription/subscription_service.py]  (tier catalog,
      [SubscriptionService])
    - [services/subscription/rate_limit_service.py]    ([RateLimitService])
    - [api/v1/subscription/middleware.py]              (request dependencies)
    - [api/v1/subscription/routes.py]                  (feature-access route)
    - [models/user.py], [models/subscription.py]       (rows and properties)
    - [schemas/subscription.py]                        ([SubscriptionUpdate])

    Conventions.  Python [int] is [Z] (unbounded).  Strings are
    [String.string].  The two module-level dicts of the catalog are
    association lists in insertion order, because the code iterates over
    them.  A table of the database is the list of its rows and
    [query(...).filter(...).first()] is the first row that satisfies the
    filter.  The session never fails in this model: [commit] and [refresh]
    are the identity.  The optional analytics collaborator is absent
    ([analytics=None], the constructor default).  [date.today()] and
    [datetime.now()] are read from an explicit [Clock]. *)

From Stdlib Require Import String List ZArith Bool Lia DecimalString.
Import ListNotations.
Open Scope string_scope.
Open Scope list_scope.
Open Scope Z_scope.

(** ** Python dictionaries with string keys, in insertion order *)

Module Dict.

Definition t (V : Type) := list (string * V).

(** [d.get(k)] *)
Fixpoint get {V} (d : t V) (k : string) : option V :=
  match d with
  | [] => None
  | (k', v) :: rest => if String.eqb k' k then Some v else get rest k
  end.

(** [d.get(k, default)] *)
Definition get_default {V} (d : t V) (k : string) (default : V) : V :=
  match get d k with Some v => v | None => default end.

(** [k in d] *)
Definition contains {V} (d : t V) (k : string) : bool :=
  match get d k with Some _ => true | None => false end.

Definition keys {V} (d : t V) : list string := map fst d.

End Dict.

(** [x in xs] for a Python list of strings *)
Definition str_in (x : string) (xs : list string) : bool :=
  existsb (String.eqb x) xs.

(** Python truthiness of a [str] *)
Definition truthy (s : string) : bool :=
  match s with EmptyString => false | _ => true end.

(** ** The tier catalog (subscription_service.py, lines 34-118) *)

Definition TIER_LIMITS : Dict.t (Dict.t Z) :=
  [ ("free",
      [ ("ask_questions", 10); ("journal_entries", 5); ("quest_daily", 1);
        ("forum_threads", 3); ("forum_comments", 10); ("forum_votes", 20);
        ("insight_expansion", 0); ("save_to_journal", 5);
        ("concept_tagging", 3); ("media_attachments", 2) ]);
    ("premium",
      [ ("ask_questions", 50); ("journal_entries", 100000);
        ("quest_daily", 3); ("forum_threads", 10); ("forum_comments", 30);
        ("forum_votes", 50); ("insight_expansion", 5);
        ("save_to_journal", 25); ("concept_tagging", 10);
        ("media_attachments", 5) ]);
    ("pro",
      [ ("ask_questions", 100000); ("journal_entries", 100000);
        ("quest_daily", 5); ("forum_threads", 100000);
        ("forum_comments", 100000); ("forum_votes", 100000);
        ("insight_expansion", 100000); ("save_to_journal", 100000);
        ("concept_tagging", 100000); ("media_attachments", 100000) ]) ].

Definition TIER_FEATURES : Dict.t (list string) :=
  [ ("free",
      [ "basic_ask"; "basic_journal"; "basic_quest"; "basic_explore";
        "basic_forum" ]);
    ("premium",
      [ "basic_ask"; "basic_journal"; "basic_quest"; "basic_explore";
        "basic_forum"; "advanced_ask"; "unlimited_journal";
        "advanced_quest"; "advanced_explore"; "advanced_forum";
        "extended_responses"; "insight_expansion";
        "advanced_visualization" ]);
    ("pro",
      [ "basic_ask"; "basic_journal"; "basic_quest"; "basic_explore";
        "basic_forum"; "advanced_ask"; "unlimited_journal";
        "advanced_quest"; "advanced_explore"; "advanced_forum";
        "extended_responses"; "insight_expansion";
        "advanced_visualization"; "unlimited_ask"; "custom_pathways";
        "premium_ai_models"; "exclusive_content"; "unlimited_export" ]) ].

(** The rank table local to [User.is_tier_or_higher] (models/user.py). *)
Definition tier_levels : Dict.t Z :=
  [ ("free", 0); ("premium", 1); ("pro", 2) ].

(** ** Rows (models/subscription.py) *)

Definition UUID := N.
Definition date := Z.

Record UserSubscription := mkUserSubscription {
  user_id : UUID;
  subscription_tier : string;
  stripe_customer_id : option string;
  stripe_subscription_id : option string;
  current_period_start : option Z;
  current_period_end : option Z;
  cancel_at_period_end : bool;
  status : string
}.

(** [UserSubscription.is_active] *)
Definition is_active (s : UserSubscription) : bool :=
  String.eqb (status s) "active".

Record FeatureUsage := mkFeatureUsage {
  fu_user_id : UUID;
  feature_name : string;
  usage_date : date;
  usage_count : Z
}.

(** The free-form [metadata] column is left out: the service always stores
    the empty dict. *)
Record SubscriptionEvent := mkSubscriptionEvent {
  ev_user_id : UUID;
  event_type : string;
  previous_tier : option string;
  new_tier : option string
}.

(** The three tables of the migration. *)
Record DB := mkDB {
  user_subscriptions : list UserSubscription;
  feature_usage : list FeatureUsage;
  subscription_events : list SubscriptionEvent
}.

Record Clock := mkClock {
  today : date;                 (* date.today() *)
  seconds_since_midnight : Z    (* of datetime.now() *)
}.

(** ** Control flow: a state monad over the database with HTTP errors *)

Record HTTPException := mkHTTPException {
  status_code : Z;
  detail : string;
  headers : Dict.t string
}.

Inductive Outcome (A : Type) : Type :=
| Return (a : A)
| Raise (e : HTTPException).
Arguments Return {A} a.
Arguments Raise {A} e.

Definition M (A : Type) : Type := DB -> Outcome A * DB.

Definition ret {A} (a : A) : M A := fun db => (Return a, db).
Definition raise {A} (e : HTTPException) : M A := fun db => (Raise e, db).
Definition bind {A B} (m : M A) (k : A -> M B) : M B :=
  fun db =>
    match m db with
    | (Return a, db') => k a db'
    | (Raise e, db') => (Raise e, db')
    end.
Definition read {A} (f : DB -> A) : M A := fun db => (Return (f db), db).
Definition write (f : DB -> DB) : M unit := fun db => (Return tt, f db).

Declare Scope svc_scope.
Delimit Scope svc_scope with svc.
Notation "x <- m ;; k" := (bind m (fun x => k))
  (at level 61, m at next level, right associativity) : svc_scope.
Notation "m ;;; k" := (bind m (fun _ => k))
  (at level 61, right associativity) : svc_scope.

(** ** SubscriptionService: reads *)

(** [get_user_subscription]: the first row of the user. *)
Definition get_user_subscription (db : DB) (uid : UUID)
  : option UserSubscription :=
  find (fun s => N.eqb (user_id s) uid) (user_subscriptions db).

(** [get_user_tier] (lines 288-301) *)
Definition get_user_tier (db : DB) (uid : UUID) : string :=
  match get_user_subscription db uid with
  | None => "free"
  | Some subscription =>
      if negb (is_active subscription) then "free"
      else subscription_tier subscription
  end.

(** The loop of [check_feature_access] (lines 315-321): walk the catalog in
    order, extend the list, stop after the user's tier. *)
Fixpoint collect_features (catalog : Dict.t (list string))
    (user_tier : string) (available_features : list string) : list string :=
  match catalog with
  | [] => available_features
  | (tier, features) :: rest =>
      let available_features := available_features ++ features in
      if String.eqb tier user_tier then available_features
      else collect_features rest user_tier available_features
  end.

Definition available_features (user_tier : string) : list string :=
  collect_features TIER_FEATURES user_tier [].

(** [check_feature_access] (lines 303-323) *)
Definition check_feature_access (db : DB) (uid : UUID) (feature : string)
  : bool :=
  let user_tier := get_user_tier db uid in
  str_in feature (available_features user_tier).

(** The usage row of a (user, feature, day) key. *)
Definition usage_key (uid : UUID) (feature : string) (day : date)
    (u : FeatureUsage) : bool :=
  N.eqb (fu_user_id u) uid && String.eqb (feature_name u) feature
  && Z.eqb (usage_date u) day.

Definition query_usage (db : DB) (uid : UUID) (feature : string) (day : date)
  : option FeatureUsage :=
  find (usage_key uid feature day) (feature_usage db).

(** [used_today = usage.usage_count if usage else 0] *)
Definition used_today (db : DB) (uid : UUID) (feature : string) (day : date)
  : Z :=
  match query_usage db uid feature day with
  | Some usage => usage_count usage
  | None => 0
  end.

(** [check_usage_limit] (lines 325-356) *)
Definition check_usage_limit (clk : Clock) (db : DB) (uid : UUID)
    (feature : string) : bool * Z :=
  let user_tier := get_user_tier db uid in
  let limits := Dict.get_default TIER_LIMITS user_tier [] in
  match Dict.get limits feature with
  | None => (true, 9999)
  | Some daily_limit =>
      let used := used_today db uid feature (today clk) in
      let remaining := Z.max 0 (daily_limit - used) in
      (0 <? remaining, remaining)
  end.

(** ** SubscriptionService: writes *)

(** [usage.usage_count += amount] on the row the query returned. *)
Fixpoint bump_first (p : FeatureUsage -> bool) (amount : Z)
    (rows : list FeatureUsage) : list FeatureUsage :=
  match rows with
  | [] => []
  | u :: rest =>
      if p u
      then mkFeatureUsage (fu_user_id u) (feature_name u) (usage_date u)
             (usage_count u + amount) :: rest
      else u :: bump_first p amount rest
  end.

Definition set_feature_usage (rows : list FeatureUsage) (db : DB) : DB :=
  mkDB (user_subscriptions db) rows (subscription_events db).

Definition set_user_subscriptions (rows : list UserSubscription) (db : DB)
  : DB :=
  mkDB rows (feature_usage db) (subscription_events db).

(** [increment_usage] (lines 358-406): get or create today's row, add
    [amount], return the new count. *)
Definition increment_usage (clk : Clock) (uid : UUID) (feature : string)
    (amount : Z) : M Z :=
  (usage <- read (fun db => query_usage db uid feature (today clk)) ;;
   match usage with
   | None =>
       let usage := mkFeatureUsage uid feature (today clk) amount in
       write (fun db => set_feature_usage (feature_usage db ++ [usage]) db) ;;;
       ret (usage_count usage)
   | Some usage =>
       write (fun db =>
                set_feature_usage
                  (bump_first (usage_key uid feature (today clk)) amount
                     (feature_usage db)) db) ;;;
       ret (usage_count usage + amount)
   end)%svc.

(** [_record_subscription_event] (lines 472-503) *)
Definition _record_subscription_event (uid : UUID) (etype : string)
    (previous new : option string) : M SubscriptionEvent :=
  (let event := mkSubscriptionEvent uid etype previous new in
   write (fun db =>
            mkDB (user_subscriptions db) (feature_usage db)
              (subscription_events db ++ [event])) ;;;
   ret event)%svc.

(** [SubscriptionUpdate] (schemas/subscription.py).  [None] is an unset
    field, dropped by [dict(exclude_unset=True)]; a nullable column can
    also be set to [None] explicitly, hence the nested options. *)
Record SubscriptionUpdate := mkSubscriptionUpdate {
  upd_subscription_tier : option string;
  upd_stripe_customer_id : option (option string);
  upd_stripe_subscription_id : option (option string);
  upd_current_period_start : option (option Z);
  upd_current_period_end : option (option Z);
  upd_cancel_at_period_end : option bool;
  upd_status : option string
}.

Definition or_keep {A} (new : option A) (old : A) : A :=
  match new with Some v => v | None => old end.

(** The [setattr] loop of [update_subscription]. *)
Definition apply_update (u : SubscriptionUpdate) (s : UserSubscription)
  : UserSubscription :=
  mkUserSubscription (user_id s)
    (or_keep (upd_subscription_tier u) (subscription_tier s))
    (or_keep (upd_stripe_customer_id u) (stripe_customer_id s))
    (or_keep (upd_stripe_subscription_id u) (stripe_subscription_id s))
    (or_keep (upd_current_period_start u) (current_period_start s))
    (or_keep (upd_current_period_end u) (current_period_end s))
    (or_keep (upd_cancel_at_period_end u) (cancel_at_period_end s))
    (or_keep (upd_status u) (status s)).

(** Mutation of the row that [get_user_subscription] returned. *)
Fixpoint modify_first (uid : UUID) (f : UserSubscription -> UserSubscription)
    (rows : list UserSubscription) : list UserSubscription :=
  match rows with
  | [] => []
  | s :: rest =>
      if N.eqb (user_id s) uid then f s :: rest
      else s :: modify_first uid f rest
  end.

Definition not_found : HTTPException :=
  mkHTTPException 404 "User subscription not found" [].

(** [create_subscription] (lines 140-182); [SubscriptionCreate] has the
    fields of the row. *)
Definition create_subscription (subscription_data : UserSubscription)
  : M UserSubscription :=
  (existing <- read (fun db =>
                 get_user_subscription db (user_id subscription_data)) ;;
   match existing with
   | Some _ =>
       raise (mkHTTPException 400 "User already has a subscription" [])
   | None =>
       write (fun db =>
                set_user_subscriptions
                  (user_subscriptions db ++ [subscription_data]) db) ;;;
       _record_subscription_event (user_id subscription_data)
         "subscription_created" None
         (Some (subscription_tier subscription_data)) ;;;
       ret subscription_data
   end)%svc.

(** [update_subscription] (lines 184-235) *)
Definition update_subscription (uid : UUID)
    (subscription_data : SubscriptionUpdate) : M UserSubscription :=
  (found <- read (fun db => get_user_subscription db uid) ;;
   match found with
   | None => raise not_found
   | Some subscription =>
       let previous := subscription_tier subscription in
       let subscription := apply_update subscription_data subscription in
       write (fun db =>
                set_user_subscriptions
                  (modify_first uid (apply_update subscription_data)
                     (user_subscriptions db)) db) ;;;
       match upd_subscription_tier subscription_data with
       | Some tier =>
           if truthy tier && negb (String.eqb previous tier)
           then _record_subscription_event uid "subscription_changed"
                  (Some previous) (Some tier) ;;;
                ret subscription
           else ret subscription
       | None => ret subscription
       end
   end)%svc.

Definition cancel_now (s : UserSubscription) : UserSubscription :=
  mkUserSubscription (user_id s) "free" (stripe_customer_id s)
    (stripe_subscription_id s) (current_period_start s)
    (current_period_end s) (cancel_at_period_end s) "canceled".

Definition cancel_later (s : UserSubscription) : UserSubscription :=
  mkUserSubscription (user_id s) (subscription_tier s) (stripe_customer_id s)
    (stripe_subscription_id s) (current_period_start s)
    (current_period_end s) true (status s).

(** [cancel_subscription] (lines 237-286).  The event is built after the
    row was mutated, from the mutated row. *)
Definition cancel_subscription (uid : UUID) (immediate : bool)
  : M UserSubscription :=
  (found <- read (fun db => get_user_subscription db uid) ;;
   match found with
   | None => raise not_found
   | Some subscription =>
       let change := if immediate then cancel_now else cancel_later in
       let subscription := change subscription in
       write (fun db =>
                set_user_subscriptions
                  (modify_first uid change (user_subscriptions db)) db) ;;;
       let etype := if immediate then "subscription_canceled_immediate"
                    else "subscription_canceled_period_end" in
       _record_subscription_event uid etype
         (Some (subscription_tier subscription))
         (Some (if immediate then "free"
                else subscription_tier subscription)) ;;;
       ret subscription
   end)%svc.

(** ** RateLimitService (rate_limit_service.py) *)

(** The metadata dict of [check_rate_limit]; an absent key is [None].
    [md_reset_time] stands for [tomorrow.isoformat()], kept as the day. *)
Record Metadata := mkMetadata {
  md_tier : string;
  md_limit_type : string;
  md_reset_seconds : option Z;
  md_reset_time : option date;
  md_limit : option Z;
  md_upgrade_required : option bool;
  md_remaining : option Z
}.

Definition set_remaining (r : Z) (m : Metadata) : Metadata :=
  mkMetadata (md_tier m) (md_limit_type m) (md_reset_seconds m)
    (md_reset_time m) (md_limit m) (md_upgrade_required m) (Some r).

(** [check_rate_limit] (lines 36-76) *)
Definition check_rate_limit (clk : Clock) (db : DB) (uid : UUID)
    (feature : string) : bool * Z * Metadata :=
  let user_tier := get_user_tier db uid in
  match Dict.get (Dict.get_default TIER_LIMITS user_tier []) feature with
  | None =>
      (true, 9999, mkMetadata user_tier "none" None None None None None)
  | Some daily_limit =>
      let '(allowed, remaining) := check_usage_limit clk db uid feature in
      let seconds_until_reset := 86400 - seconds_since_midnight clk in
      let metadata :=
        mkMetadata user_tier "daily" (Some seconds_until_reset)
          (Some (today clk + 1)) (Some daily_limit)
          (Some (negb allowed && negb (String.eqb user_tier "pro"))) None in
      (allowed, remaining, metadata)
  end.

(** [increment_and_check] (lines 78-108) *)
Definition increment_and_check (clk : Clock) (uid : UUID) (feature : string)
    (amount : Z) : M (bool * Z * Metadata) :=
  (checked <- read (fun db => check_rate_limit clk db uid feature) ;;
   let '(allowed, remaining, metadata) := checked in
   if allowed : bool then
     let increment_amount := Z.min amount remaining in
     increment_usage clk uid feature increment_amount ;;;
     let remaining := Z.max 0 (remaining - increment_amount) in
     ret (allowed, remaining, set_remaining remaining metadata)
   else ret (allowed, remaining, metadata))%svc.

(** Python [str] of an [int] and of a lowered [bool]. *)
Definition str_of_int (z : Z) : string :=
  DecimalString.NilZero.string_of_int (Z.to_int z).

Definition str_of_bool_lower (b : bool) : string :=
  if b then "true" else "false".

(** [get_rate_limit_headers] (lines 121-141) *)
Definition get_rate_limit_headers (allowed : bool) (remaining : Z)
    (metadata : Metadata) : Dict.t string :=
  [ ("X-RateLimit-Limit",
      str_of_int (match md_limit metadata with Some l => l | None => 0 end));
    ("X-RateLimit-Remaining", str_of_int remaining);
    ("X-RateLimit-Reset",
      str_of_int (match md_reset_seconds metadata with
                  | Some s => s | None => 0 end));
    ("X-Tier-Level", md_tier metadata);
    ("X-Upgrade-Required",
      str_of_bool_lower (match md_upgrade_required metadata with
                         | Some b => b | None => false end)) ].

(** ** The user model (models/user.py) *)

(** Only the primary key of a user row takes part here; the
    [subscription] relationship is the user's row of [user_subscriptions]. *)
Record User := mkUser { id : UUID }.

Definition user_subscription (db : DB) (u : User) : option UserSubscription :=
  get_user_subscription db (id u).

(** [User.subscription_tier] (lines 46-51): the status is not consulted. *)
Definition user_subscription_tier (db : DB) (u : User) : string :=
  match user_subscription db u with
  | None => "free"
  | Some s => subscription_tier s
  end.

(** [User.is_tier_or_higher] (lines 53-68) *)
Definition is_tier_or_higher (db : DB) (u : User) (tier : string) : bool :=
  let user_tier_level :=
    Dict.get_default tier_levels (user_subscription_tier db u) 0 in
  let required_tier_level := Dict.get_default tier_levels tier 0 in
  required_tier_level <=? user_tier_level.

(** ** Request dependencies (middleware.py) *)

(** [request.state]: the attribute is absent until a dependency sets it. *)
Record Request := mkRequest { rate_limit_headers : option (Dict.t string) }.

Definition tier_names : Dict.t string :=
  [ ("free", "Free"); ("premium", "Premium"); ("pro", "Pro") ].

(** [verify_subscription_tier] (lines 28-78) *)
Definition verify_subscription_tier (required_tier : string)
    (current_user : User) : M User :=
  (user_tier <- read (fun db => get_user_tier db (id current_user)) ;;
   sufficient <- read (fun db =>
                   is_tier_or_higher db current_user required_tier) ;;
   if negb sufficient then
     raise (mkHTTPException 402
              ("This feature requires a "
               ++ Dict.get_default tier_names required_tier required_tier
               ++ " subscription")%string
              [ ("X-Current-Tier", user_tier);
                ("X-Required-Tier", required_tier);
                ("X-Upgrade-Required", "true") ])
   else ret current_user)%svc.

(** The scan shared by [verify_feature_access] (lines 113-117) and the
    feature-access route (lines 92-96): the first tier, in catalog order,
    whose list holds the feature. *)
Fixpoint required_tier_in (catalog : Dict.t (list string))
    (feature : string) : option string :=
  match catalog with
  | [] => None
  | (tier, features) :: rest =>
      if str_in feature features then Some tier
      else required_tier_in rest feature
  end.

Definition required_tier (feature : string) : option string :=
  required_tier_in TIER_FEATURES feature.

(** [x or default] on an optional string. *)
Definition py_or (x : option string) (default : string) : string :=
  match x with
  | Some s => if truthy s then s else default
  | None => default
  end.

(** [verify_feature_access] (lines 81-135) *)
Definition verify_feature_access (feature : string) (current_user : User)
  : M User :=
  (has_access <- read (fun db =>
                   check_feature_access db (id current_user) feature) ;;
   if negb has_access then
     let required := py_or (required_tier feature) "premium" in
     user_tier <- read (fun db => get_user_tier db (id current_user)) ;;
     raise (mkHTTPException 402
              "This feature requires a higher subscription tier"
              [ ("X-Current-Tier", user_tier);
                ("X-Required-Tier", required);
                ("X-Feature-Name", feature);
                ("X-Upgrade-Required", "true") ])
   else ret current_user)%svc.

(** [verify_usage_limit] (lines 138-184).  On the 429 path the headers put
    on the request are the ones the exception carries. *)
Definition verify_usage_limit (clk : Clock) (feature : string)
    (request : Request) (current_user : User) : M (User * Request) :=
  (checked <- read (fun db =>
                check_rate_limit clk db (id current_user) feature) ;;
   let '(allowed, remaining, metadata) := checked in
   let hdrs := get_rate_limit_headers allowed remaining metadata in
   let request := mkRequest (Some hdrs) in
   if negb allowed then
     raise (mkHTTPException 429 ("Usage limit reached for " ++ feature)%string
              hdrs)
   else ret (current_user, request))%svc.

(** [track_usage] (lines 187-226) *)
Definition track_usage (clk : Clock) (feature : string) (amount : Z)
    (request : Request) (current_user : User) : M (User * Request) :=
  (result <- increment_and_check clk (id current_user) feature amount ;;
   let '(allowed, remaining, metadata) := result in
   let request :=
     mkRequest (Some (get_rate_limit_headers allowed remaining metadata)) in
   ret (current_user, request))%svc.

(** A route behind request dependencies: the framework resolves them in
    order, threads the request through, and calls the endpoint only when
    none raised. *)
Definition Dependency := Request -> User -> M (User * Request).

Fixpoint resolve (deps : list Dependency) (request : Request)
    (current_user : User) : M Request :=
  match deps with
  | [] => ret request
  | d :: rest =>
      (r <- d request current_user ;;
       resolve rest (snd r) current_user)%svc
  end.

Definition guarded_route {A} (deps : list Dependency)
    (endpoint : User -> Request -> M A) (request : Request)
    (current_user : User) : M A :=
  (request <- resolve deps request current_user ;;
   endpoint current_user request)%svc.

(** ** The feature-access route (routes.py, lines 67-103) *)

Record FeatureAccessResponse := mkFeatureAccessResponse {
  fa_feature_name : string;
  fa_has_access : bool;
  fa_current_tier : string;
  fa_required_tier : string
}.

(** [feature_exists]: some tier's list holds the feature. *)
Definition feature_exists (feature : string) : bool :=
  existsb (fun entry => str_in feature (snd entry)) TIER_FEATURES.

Definition route_check_feature_access (feature : string)
    (current_user : User) : M FeatureAccessResponse :=
  (has_access <- read (fun db =>
                   check_feature_access db (id current_user) feature) ;;
   if negb (feature_exists feature) then
     raise (mkHTTPException 404
              ("Feature '" ++ feature ++ "' not found")%string [])
   else
     user_tier <- read (fun db => get_user_tier db (id current_user)) ;;
     ret (mkFeatureAccessResponse feature has_access user_tier
            (py_or (required_tier feature) "unknown")))%svc.

(** ** Specification vocabulary *)

(** The daily limit configured for a feature at a tier, as the services
    look it up: [TIER_LIMITS.get(user_tier, {})] and then the feature. *)
Definition tier_limit (user_tier feature : string) : option Z :=
  Dict.get (Dict.get_default TIER_LIMITS user_tier []) feature.

(** Today's stored counter of a (user, feature) pair. *)
Definition counter (clk : Clock) (db : DB) (uid : UUID) (feature : string)
  : Z :=
  used_today db uid feature (today clk).

(** Final database of a computation. *)
Definition exec {A} (m : M A) (db : DB) : DB := snd (m db).

(** The raw feature list of a tier in the catalog. *)
Definition tier_features (tier : string) : list string :=
  Dict.get_default TIER_FEATURES tier [].

(** Inclusion of feature lists, decided. *)
Definition features_subset (xs ys : list string) : bool :=
  forallb (fun x => str_in x ys) xs.

(** Pointwise order of two limit tables on their common keys, decided. *)
Definition limits_le (d1 d2 : Dict.t Z) : bool :=
  forallb (fun entry =>
             match Dict.get d2 (fst entry) with
             | Some l2 => snd entry <=? l2
             | None => true
             end) d1.

(** [n] calls of [increment_and_check] with amount 1, one after the other;
    the list holds the [allowed] flag of each call, first call first. *)
Fixpoint track_repeatedly (clk : Clock) (uid : UUID) (feature : string)
    (n : nat) : M (list bool) :=
  match n with
  | O => ret []
  | S n' =>
      (r <- increment_and_check clk uid feature 1 ;;
       rest <- track_repeatedly clk uid feature n' ;;
       ret (fst (fst r) :: rest))%svc
  end.

(** ** Sample states *)

Definition clock0 : Clock := mkClock 20000 3600.

Definition alice : User := mkUser 1%N.

Definition db_empty : DB := mkDB [] [] [].

(** A subscription row of [alice] with the given tier and status. *)
Definition alice_subscription (tier st : string) : UserSubscription :=
  mkUserSubscription 1%N tier None None None None false st.

(** [alice] without a subscription row, [n] questions asked today. *)
Definition db_asked (n : Z) : DB :=
  mkDB [] [mkFeatureUsage 1%N "ask_questions" 20000 n] [].

(** [alice] asked 30 questions as a premium user and was then cancelled
    immediately, the same day. *)
Definition db_downgraded : DB :=
  mkDB [alice_subscription "free" "canceled"]
       [mkFeatureUsage 1%N "ask_questions" 20000 30] [].

Definition db_premium : DB :=
  mkDB [alice_subscription "premium" "active"] [] [].

(** A pro subscription whose payment is overdue. *)
Definition db_past_due_pro : DB :=
  mkDB [alice_subscription "pro" "past_due"] [] [].

(** An active subscription whose tier is not in the catalog. *)
Definition db_enterprise : DB :=
  mkDB [alice_subscription "enterprise" "active"] [] [].

(** ** More of the models, services and routes *)

(** [UserSubscription.is_premium] and [is_pro] (models/subscription.py,
    lines 52-60) *)
Definition is_premium (s : UserSubscription) : bool :=
  str_in (subscription_tier s) ["premium"; "pro"].

Definition is_pro (s : UserSubscription) : bool :=
  String.eqb (subscription_tier s) "pro".

(** [d[k] = v]: an existing key keeps its place and takes the new value, a
    new key goes to the end. *)
Fixpoint dict_set {V} (d : Dict.t V) (k : string) (v : V) : Dict.t V :=
  match d with
  | [] => [(k, v)]
  | (k', v') :: rest =>
      if String.eqb k' k then (k', v) :: rest
      else (k', v') :: dict_set rest k v
  end.

(** The columns of the unique index of [feature_usage]. *)
Definition key_of (u : FeatureUsage) : UUID * string * date :=
  (fu_user_id u, feature_name u, usage_date u).

(** The unique index holds: no two usage rows share user, feature and
    day. *)
Definition usage_keys_unique (db : DB) : Prop :=
  NoDup (map key_of (feature_usage db)).

(** [FeatureUsageSummary] (schemas/subscription.py) *)
Record FeatureUsageSummary := mkFeatureUsageSummary {
  fus_feature_name : string;
  fus_used_today : Z;
  fus_daily_limit : Z;
  fus_remaining : Z;
  fus_reset_time : option string
}.

(** The hour and the minute of [datetime.now()]. *)
Definition hour (clk : Clock) : Z := seconds_since_midnight clk / 3600.
Definition minute (clk : Clock) : Z :=
  (seconds_since_midnight clk / 60) mod 60.

(** [f"{23 - datetime.now().hour}h {59 - datetime.now().minute}m"]; the
    clock is read once. *)
Definition reset_time_text (clk : Clock) : string :=
  (str_of_int (23 - hour clk) ++ "h " ++ str_of_int (59 - minute clk)
   ++ "m")%string.

(** Today's rows of a user: [query(...).filter(user, today).all()]. *)
Definition todays_usages (clk : Clock) (db : DB) (uid : UUID)
  : list FeatureUsage :=
  filter (fun u => N.eqb (fu_user_id u) uid && Z.eqb (usage_date u) (today clk))
    (feature_usage db).

(** [{u.feature_name: u.usage_count for u in usages}] *)
Definition usage_dict (usages : list FeatureUsage) : Dict.t Z :=
  fold_left (fun d u => dict_set d (feature_name u) (usage_count u))
    usages [].

(** [get_feature_usage_summary] (lines 408-445) *)
Definition get_feature_usage_summary (clk : Clock) (db : DB) (uid : UUID)
  : Dict.t FeatureUsageSummary :=
  let user_tier := get_user_tier db uid in
  let usages := usage_dict (todays_usages clk db uid) in
  fold_left
    (fun summary entry =>
       let feature := fst entry in
       let limit := snd entry in
       let used := Dict.get_default usages feature 0 in
       let remaining := Z.max 0 (limit - used) in
       dict_set summary feature
         (mkFeatureUsageSummary feature used limit remaining
            (Some (reset_time_text clk))))
    (Dict.get_default TIER_LIMITS user_tier []) [].

(** [SubscriptionSummary] (schemas/subscription.py) *)
Record SubscriptionSummary := mkSubscriptionSummary {
  ss_tier : string;
  ss_status : string;
  ss_is_active : bool;
  ss_current_period_end : option Z;
  ss_cancel_at_period_end : bool;
  ss_feature_usage : Dict.t FeatureUsageSummary
}.

(** [get_subscription_summary] (lines 447-470) *)
Definition get_subscription_summary (clk : Clock) (db : DB) (uid : UUID)
  : SubscriptionSummary :=
  let subscription := get_user_subscription db uid in
  let tier := match subscription with
              | Some s => subscription_tier s
              | None => "free"
              end in
  let feature_usage := get_feature_usage_summary clk db uid in
  mkSubscriptionSummary tier
    (match subscription with Some s => status s | None => "none" end)
    (match subscription with Some s => is_active s | None => false end)
    (match subscription with
     | Some s => current_period_end s | None => None end)
    (match subscription with
     | Some s => cancel_at_period_end s | None => false end)
    feature_usage.

(** [get_reset_time] (rate_limit_service.py, lines 110-119): midnight of
    the next day, kept as the day. *)
Definition get_reset_time (clk : Clock) : date := today clk + 1.

(** The route [GET /me] (routes.py, lines 39-53) *)
Definition route_get_my_subscription (current_user : User)
  : M UserSubscription :=
  (subscription <- read (fun db =>
                     get_user_subscription db (id current_user)) ;;
   match subscription with
   | None => raise (mkHTTPException 404 "Subscription not found" [])
   | Some s => ret s
   end)%svc.

(** The answer of the route [GET /usage-limits/{feature_name}]: the two
    dicts the handler can return. *)
Inductive UsageLimitResponse :=
| NoUsageLimit (feature current_tier message : string)
| UsageLimit (feature : string) (allowed : bool) (remaining : Z)
    (current_tier : string) (daily_limit : Z) (reset_time : option date).

(** The route [GET /usage-limits/{feature_name}] (routes.py, lines
    106-139) *)
Definition route_check_usage_limit (clk : Clock) (feature : string)
    (current_user : User) : M UsageLimitResponse :=
  (user_tier <- read (fun db => get_user_tier db (id current_user)) ;;
   let limits := Dict.get_default TIER_LIMITS user_tier [] in
   let has_limit := Dict.contains limits feature in
   if negb has_limit then
     ret (NoUsageLimit feature user_tier
            "This feature does not have usage limits for your subscription tier")
   else
     checked <- read (fun db =>
                  check_rate_limit clk db (id current_user) feature) ;;
     let '(allowed, remaining, metadata) := checked in
     ret (UsageLimit feature allowed remaining user_tier
            (Dict.get_default limits feature 0)
            (md_reset_time metadata)))%svc.

(** The answer of the route [GET /features]. *)
Record AvailableFeatures := mkAvailableFeatures {
  af_current_tier : string;
  af_available_features : list string;
  af_next_tier : option string;
  af_next_tier_features : list string
}.

(** The route [GET /features] (routes.py, lines 142-178) *)
Definition route_get_available_features (current_user : User)
  : M AvailableFeatures :=
  (user_tier <- read (fun db => get_user_tier db (id current_user)) ;;
   let available := collect_features TIER_FEATURES user_tier [] in
   let next :=
     if String.eqb user_tier "free"
     then (Some "premium", Dict.get_default TIER_FEATURES "premium" [])
     else if String.eqb user_tier "premium"
          then (Some "pro", Dict.get_default TIER_FEATURES "pro" [])
          else (None, []) in
   let next_tier_features :=
     filter (fun f => negb (str_in f available)) (snd next) in
   ret (mkAvailableFeatures user_tier available (fst next)
          next_tier_features))%svc.

(** The route [POST /cancel] (routes.py, lines 247-256) *)
Definition route_cancel_subscription (immediate : bool)
    (current_user : User) : M UserSubscription :=
  cancel_subscription (id current_user) immediate.

(** ** More sample states *)

Definition bob : User := mkUser 2%N.

(** [alice] is a premium subscriber, [bob] has no row; both asked
    questions today and [alice] also yesterday. *)
Definition db_two_users : DB :=
  mkDB [alice_subscription "premium" "active"]
       [ mkFeatureUsage 1%N "ask_questions" 19999 50;
         mkFeatureUsage 1%N "ask_questions" 20000 7;
         mkFeatureUsage 2%N "ask_questions" 20000 3 ]
       [].

(** ** Calls that overlap *)

(** [increment_usage] talks to the store twice: a query (lines 373-377),
    and then the insert or the write-back of [usage.usage_count += amount],
    an addition made in Python on the value the query loaded, followed by
    the commit (lines 379-393).  The two steps, separately: *)

Definition load_usage (clk : Clock) (uid : UUID) (feature : string)
    (db : DB) : option FeatureUsage :=
  query_usage db uid feature (today clk).

(** The UPDATE of the loaded row: its count is set to the value computed
    in Python. *)
Fixpoint set_first (p : FeatureUsage -> bool) (n : Z)
    (rows : list FeatureUsage) : list FeatureUsage :=
  match rows with
  | [] => []
  | u :: rest =>
      if p u
      then mkFeatureUsage (fu_user_id u) (feature_name u) (usage_date u) n
           :: rest
      else u :: set_first p n rest
  end.

Definition store_usage (clk : Clock) (uid : UUID) (feature : string)
    (amount : Z) (loaded : option FeatureUsage) : M Z :=
  (match loaded with
   | None =>
       let usage := mkFeatureUsage uid feature (today clk) amount in
       write (fun db => set_feature_usage (feature_usage db ++ [usage]) db) ;;;
       ret (usage_count usage)
   | Some usage =>
       let n := usage_count usage + amount in
       write (fun db =>
                set_feature_usage
                  (set_first (usage_key uid feature (today clk)) n
                     (feature_usage db)) db) ;;;
       ret n
   end)%svc.

(** Where one call of [increment_and_check] stands between its accesses to
    the store: before the check, after an allowing check, after the query
    of [increment_usage], and after its write. *)
Inductive Call :=
| Start
| Checked (remaining : Z) (metadata : Metadata)
| Loaded (remaining : Z) (metadata : Metadata)
    (usage : option FeatureUsage)
| Finished (result : bool * Z * Metadata).

(** The next access of a call to the store. *)
Definition call_step (clk : Clock) (uid : UUID) (feature : string)
    (amount : Z) (c : Call) (db : DB) : Call * DB :=
  match c with
  | Start =>
      let '(allowed, remaining, metadata) :=
        check_rate_limit clk db uid feature in
      if allowed : bool then (Checked remaining metadata, db)
      else (Finished (allowed, remaining, metadata), db)
  | Checked remaining metadata =>
      (Loaded remaining metadata (load_usage clk uid feature db), db)
  | Loaded remaining metadata usage =>
      let increment_amount := Z.min amount remaining in
      let db' :=
        exec (store_usage clk uid feature increment_amount usage) db in
      let remaining := Z.max 0 (remaining - increment_amount) in
      (Finished (true, remaining, set_remaining remaining metadata), db')
  | Finished result => (Finished result, db)
  end.

(** Several calls with the same arguments against one database; a schedule
    names, step by step, the call that moves next. *)
Fixpoint step_nth (clk : Clock) (uid : UUID) (feature : string)
    (amount : Z) (i : nat) (calls : list Call) (db : DB)
  : list Call * DB :=
  match calls, i with
  | [], _ => ([], db)
  | c :: rest, O =>
      let '(c', db') := call_step clk uid feature amount c db in
      (c' :: rest, db')
  | c :: rest, S j =>
      let '(rest', db') := step_nth clk uid feature amount j rest db in
      (c :: rest', db')
  end.

Fixpoint run_schedule (clk : Clock) (uid : UUID) (feature : string)
    (amount : Z) (schedule : list nat) (calls : list Call) (db : DB)
  : list Call * DB :=
  match schedule with
  | [] => (calls, db)
  | i :: later =>
      let '(calls', db') := step_nth clk uid feature amount i calls db in
      run_schedule clk uid feature amount later calls' db'
  end.

(** The verdict of a call that has finished. *)
Definition reported_allowed (c : Call) : bool :=
  match c with
  | Finished (allowed, _, _) => allowed
  | _ => false
  end.

(** * Properties *)

(** ** The usage counter store *)

Section UsageStore.

Variables (uid : UUID) (feature : string) (day : date).

Lemma find_bump_first (amount : Z) (rows : list FeatureUsage) :
  find (usage_key uid feature day)
    (bump_first (usage_key uid feature day) amount rows)
  = option_map
      (fun u => mkFeatureUsage (fu_user_id u) (feature_name u)
                  (usage_date u) (usage_count u + amount))
      (find (usage_key uid feature day) rows).
Proof.
  induction rows as [|u rest IH]; simpl; [reflexivity|].
  destruct (usage_key uid feature day u) eqn:Hk; simpl.
  - unfold usage_key in *; simpl. now rewrite Hk.
  - rewrite Hk. exact IH.
Qed.

Lemma find_append_fresh (u : FeatureUsage) (rows : list FeatureUsage) :
  find (usage_key uid feature day) rows = None ->
  find (usage_key uid feature day) (rows ++ [u])
  = if usage_key uid feature day u then Some u else None.
Proof.
  induction rows as [|v rest IH]; simpl; [reflexivity|].
  destruct (usage_key uid feature day v); [discriminate | exact IH].
Qed.

Lemma usage_key_self (n : Z) :
  usage_key uid feature day (mkFeatureUsage uid feature day n) = true.
Proof.
  unfold usage_key; simpl.
  now rewrite N.eqb_refl, String.eqb_refl, Z.eqb_refl.
Qed.

End UsageStore.

(** [increment_usage] never raises, returns the new count, and the count
    it returns is the one a later read finds. *)
Lemma increment_usage_spec (clk : Clock) (uid : UUID) (feature : string)
    (amount : Z) (db : DB) :
  exists db',
    increment_usage clk uid feature amount db
    = (Return (counter clk db uid feature + amount), db')
    /\ counter clk db' uid feature = counter clk db uid feature + amount
    /\ user_subscriptions db' = user_subscriptions db
    /\ subscription_events db' = subscription_events db.
Proof.
  unfold increment_usage, counter, used_today, bind, read, write, ret.
  unfold query_usage.
  destruct (find _ (feature_usage db)) as [u|] eqn:Hq.
  - eexists; split; [reflexivity|]. simpl.
    rewrite find_bump_first, Hq. simpl. auto.
  - eexists; split; [reflexivity|]. simpl.
    rewrite (find_append_fresh _ _ _ _ _ Hq), usage_key_self. simpl. auto.
Qed.

(** The tier of a user depends on the subscription table alone. *)
Lemma get_user_tier_frame (db db' : DB) (uid : UUID) :
  user_subscriptions db' = user_subscriptions db ->
  get_user_tier db' uid = get_user_tier db uid.
Proof.
  intros H. unfold get_user_tier, get_user_subscription. now rewrite H.
Qed.

(** [check_rate_limit] on a feature with a configured limit. *)
Lemma check_rate_limit_limited (clk : Clock) (db : DB) (uid : UUID)
    (feature : string) (limit : Z) :
  tier_limit (get_user_tier db uid) feature = Some limit ->
  let remaining := Z.max 0 (limit - counter clk db uid feature) in
  exists metadata,
    check_rate_limit clk db uid feature = (0 <? remaining, remaining, metadata)
    /\ md_limit metadata = Some limit
    /\ md_limit_type metadata = "daily"
    /\ md_tier metadata = get_user_tier db uid.
Proof.
  intros Hl. unfold tier_limit in Hl.
  unfold check_rate_limit, check_usage_limit. rewrite Hl. simpl.
  eexists; split; [reflexivity|]. simpl. auto.
Qed.

(** [increment_and_check] on a feature with a configured limit, in full:
    it never raises; it is allowed exactly below the limit; it then adds
    [min(amount, limit - count)] and otherwise writes nothing. *)
Lemma increment_and_check_limited (clk : Clock) (db : DB) (uid : UUID)
    (feature : string) (amount limit : Z) :
  tier_limit (get_user_tier db uid) feature = Some limit ->
  exists metadata db',
    increment_and_check clk uid feature amount db
    = (Return (counter clk db uid feature <? limit,
               if counter clk db uid feature <? limit
               then limit - counter clk db uid feature
                    - Z.min amount (limit - counter clk db uid feature)
               else 0,
               metadata),
       db')
    /\ counter clk db' uid feature
       = (if counter clk db uid feature <? limit
          then counter clk db uid feature
               + Z.min amount (limit - counter clk db uid feature)
          else counter clk db uid feature)
    /\ ((counter clk db uid feature <? limit) = false -> db' = db)
    /\ user_subscriptions db' = user_subscriptions db.
Proof.
  intros Hl.
  destruct (check_rate_limit_limited clk db uid feature limit Hl)
    as (md & Hc & _).
  unfold increment_and_check, bind, read. rewrite Hc.
  set (c := counter clk db uid feature) in *.
  destruct (Z.ltb_spec c limit) as [Hlt|Hge].
  - replace (0 <? Z.max 0 (limit - c)) with true
      by (symmetry; apply Z.ltb_lt; lia).
    replace (Z.max 0 (limit - c)) with (limit - c) by lia.
    destruct (increment_usage_spec clk uid feature
                (Z.min amount (limit - c)) db)
      as (db' & Hi & Hc' & Hsub & _).
    rewrite Hi. unfold ret. fold c in Hc'.
    replace (Z.max 0 (limit - c - Z.min amount (limit - c)))
      with (limit - c - Z.min amount (limit - c)) by lia.
    do 2 eexists. split; [reflexivity|].
    split; [exact Hc'|]. split; [discriminate | exact Hsub].
  - replace (0 <? Z.max 0 (limit - c)) with false
      by (symmetry; apply Z.ltb_ge; lia).
    replace (Z.max 0 (limit - c)) with 0 by lia.
    unfold ret. do 2 eexists. split; [reflexivity|].
    fold c. auto.
Qed.

(** ** The capped increment *)

(** The worked example of the design: limit 10, 8 used, 5 requested; the
    counter ends at 10 and nothing remains. *)
Example increment_and_check_8_plus_5 :
  let '(out, db') := increment_and_check clock0 1%N "ask_questions" 5
                       (db_asked 8) in
  (exists metadata, out = Return (true, 0, metadata))
  /\ counter clock0 db' 1%N "ask_questions" = 10.
Proof. vm_compute. split; [eexists|]; reflexivity. Qed.

(** C1, as stated, fails: a counter that is above the limit of the
    current tier when the call starts (30 questions asked before a
    same-day downgrade to the free tier, whose limit is 10) is above it when
    the call ends. *)
Lemma increment_and_check_may_end_above_limit :
  ~ (forall clk db uid feature amount limit,
        tier_limit (get_user_tier db uid) feature = Some limit ->
        counter clk (exec (increment_and_check clk uid feature amount) db)
          uid feature <= limit).
Proof.
  intros H.
  specialize (H clock0 db_downgraded 1%N "ask_questions" 1 10 eq_refl).
  vm_compute in H. apply H. reflexivity.
Qed.

(** C1 (amended): for a feature with a configured limit and a positive
    amount, [increment_and_check] returns normally.  The call is allowed
    exactly when the count is below the limit.  When it is allowed, the
    counter advances by exactly [min(amount, limit - count)], the returned
    remaining is the limit minus the new count, and the metadata of the
    check comes back with that remaining recorded.  When it is not
    allowed, nothing is written, the remaining is 0 and the metadata is
    that of the check.  Hence the advance lies between 0 and
    [min(amount, max(0, limit - count))], and the counter ends no higher
    than the larger of the limit and its starting value: within the limit
    whenever it started there, unchanged and still above it otherwise. *)
Theorem increment_and_check_capped (clk : Clock) (db : DB) (uid : UUID)
    (feature : string) (amount limit : Z) :
  tier_limit (get_user_tier db uid) feature = Some limit ->
  0 < amount ->
  exists allowed remaining metadata db',
    increment_and_check clk uid feature amount db
    = (Return (allowed, remaining, metadata), db')
    /\ allowed = (counter clk db uid feature <? limit)
    /\ counter clk db' uid feature
       = counter clk db uid feature
         + (if counter clk db uid feature <? limit
            then Z.min amount (limit - counter clk db uid feature)
            else 0)
    /\ remaining
       = (if counter clk db uid feature <? limit
          then limit - counter clk db' uid feature
          else 0)
    /\ metadata
       = (if counter clk db uid feature <? limit
          then set_remaining remaining
                 (snd (check_rate_limit clk db uid feature))
          else snd (check_rate_limit clk db uid feature))
    /\ (allowed = false -> db' = db)
    /\ 0 <= counter clk db' uid feature - counter clk db uid feature
         <= Z.min amount (Z.max 0 (limit - counter clk db uid feature))
    /\ counter clk db' uid feature
       <= Z.max (counter clk db uid feature) limit
    /\ (counter clk db uid feature <= limit ->
        counter clk db' uid feature <= limit
        /\ remaining = limit - counter clk db' uid feature).
Proof.
  intros Hl Ha.
  destruct (check_rate_limit_limited clk db uid feature limit Hl)
    as (md & Hc & _).
  unfold increment_and_check, bind, read. rewrite Hc. cbn [snd].
  set (c := counter clk db uid feature) in *.
  destruct (Z.ltb_spec c limit) as [Hlt|Hge].
  - replace (0 <? Z.max 0 (limit - c)) with true
      by (symmetry; apply Z.ltb_lt; lia).
    replace (Z.max 0 (limit - c)) with (limit - c) by lia.
    destruct (increment_usage_spec clk uid feature
                (Z.min amount (limit - c)) db)
      as (db' & Hi & Hc' & _).
    rewrite Hi. unfold ret. fold c in Hc'.
    replace (Z.max 0 (limit - c - Z.min amount (limit - c)))
      with (limit - (c + Z.min amount (limit - c))) by lia.
    do 4 eexists. split; [reflexivity|].
    rewrite Hc'. repeat split; try lia; discriminate.
  - replace (0 <? Z.max 0 (limit - c)) with false
      by (symmetry; apply Z.ltb_ge; lia).
    replace (Z.max 0 (limit - c)) with 0 by lia.
    unfold ret. do 4 eexists. split; [reflexivity|].
    fold c. repeat split; lia.
Qed.

Lemma increment_and_check_capped_witness :
  tier_limit (get_user_tier (db_asked 8) 1%N) "ask_questions" = Some 10
  /\ 0 < 5
  /\ exists allowed remaining metadata db',
       increment_and_check clock0 1%N "ask_questions" 5 (db_asked 8)
       = (Return (allowed, remaining, metadata), db')
       /\ allowed = (counter clock0 (db_asked 8) 1%N "ask_questions" <? 10)
       /\ counter clock0 db' 1%N "ask_questions"
          = counter clock0 (db_asked 8) 1%N "ask_questions"
            + (if counter clock0 (db_asked 8) 1%N "ask_questions" <? 10
               then Z.min 5
                      (10 - counter clock0 (db_asked 8) 1%N "ask_questions")
               else 0)
       /\ remaining
          = (if counter clock0 (db_asked 8) 1%N "ask_questions" <? 10
             then 10 - counter clock0 db' 1%N "ask_questions"
             else 0)
       /\ metadata
          = (if counter clock0 (db_asked 8) 1%N "ask_questions" <? 10
             then set_remaining remaining
                    (snd (check_rate_limit clock0 (db_asked 8) 1%N
                            "ask_questions"))
             else snd (check_rate_limit clock0 (db_asked 8) 1%N
                         "ask_questions"))
       /\ (allowed = false -> db' = db_asked 8)
       /\ 0 <= counter clock0 db' 1%N "ask_questions"
               - counter clock0 (db_asked 8) 1%N "ask_questions"
            <= Z.min 5 (Z.max 0
                 (10 - counter clock0 (db_asked 8) 1%N "ask_questions"))
       /\ counter clock0 db' 1%N "ask_questions"
          <= Z.max (counter clock0 (db_asked 8) 1%N "ask_questions") 10
       /\ (counter clock0 (db_asked 8) 1%N "ask_questions" <= 10 ->
           counter clock0 db' 1%N "ask_questions" <= 10
           /\ remaining = 10 - counter clock0 db' 1%N "ask_questions").
Proof.
  split; [reflexivity|]. split; [lia|].
  apply (increment_and_check_capped clock0 (db_asked 8) 1%N
           "ask_questions" 5 10); [reflexivity | lia].
Defined.

(** ** The tier catalog is cumulative *)

Lemma str_in_In (x : string) (xs : list string) :
  str_in x xs = true <-> In x xs.
Proof.
  unfold str_in. rewrite existsb_exists. split.
  - intros (y & Hy & E). apply String.eqb_eq in E. now subst.
  - intros H. exists x. split; [exact H | apply String.eqb_refl].
Qed.

Lemma str_in_app (x : string) (xs ys : list string) :
  str_in x (xs ++ ys) = str_in x xs || str_in x ys.
Proof. unfold str_in. apply existsb_app. Qed.

Lemma features_subset_sound (xs ys : list string) :
  features_subset xs ys = true ->
  forall f, str_in f xs = true -> str_in f ys = true.
Proof.
  unfold features_subset. rewrite forallb_forall.
  intros H f Hf. apply H. now apply str_in_In.
Qed.

Lemma limits_le_sound (d1 d2 : Dict.t Z) :
  limits_le d1 d2 = true ->
  forall f l1 l2,
    Dict.get d1 f = Some l1 -> Dict.get d2 f = Some l2 -> l1 <= l2.
Proof.
  unfold limits_le.
  induction d1 as [|[k v] rest IH]; simpl; intros H f l1 l2.
  - discriminate.
  - apply andb_true_iff in H. destruct H as [Hk Hrest].
    destruct (String.eqb_spec k f) as [->|_].
    + intros [= ->] H2. rewrite H2 in Hk. now apply Z.leb_le.
    + now apply IH.
Qed.

(** The ranked tiers are exactly the three of the catalog. *)
Lemma tier_levels_inv (t : string) (r : Z) :
  Dict.get tier_levels t = Some r ->
  (t = "free" /\ r = 0) \/ (t = "premium" /\ r = 1) \/ (t = "pro" /\ r = 2).
Proof.
  unfold tier_levels; cbn [Dict.get].
  destruct (String.eqb_spec "free" t) as [<-|_];
    [intros [= <-]; auto|].
  destruct (String.eqb_spec "premium" t) as [<-|_];
    [intros [= <-]; auto|].
  destruct (String.eqb_spec "pro" t) as [<-|_];
    [intros [= <-]; auto|].
  discriminate.
Qed.

(** C7: for tiers [t1] ranked below [t2], every feature reachable at
    [t1] (by the walk of [check_feature_access], and also in the raw
    catalog list) is reachable at [t2], and a feature limited at both has
    a limit at [t1] no larger than its limit at [t2]. *)
Theorem catalog_cumulative (t1 t2 : string) (r1 r2 : Z) :
  Dict.get tier_levels t1 = Some r1 ->
  Dict.get tier_levels t2 = Some r2 ->
  r1 < r2 ->
  (forall f, str_in f (available_features t1) = true ->
             str_in f (available_features t2) = true)
  /\ (forall f, str_in f (Dict.get_default TIER_FEATURES t1 []) = true ->
                str_in f (Dict.get_default TIER_FEATURES t2 []) = true)
  /\ (forall f l1 l2, tier_limit t1 f = Some l1 ->
                      tier_limit t2 f = Some l2 -> l1 <= l2).
Proof.
  intros H1 H2 Hr.
  apply tier_levels_inv in H1, H2.
  destruct H1 as [[-> ->]|[[-> ->]|[-> ->]]];
    destruct H2 as [[-> ->]|[[-> ->]|[-> ->]]]; try lia;
    (split; [|split]);
    solve [ apply features_subset_sound; vm_compute; reflexivity
          | apply limits_le_sound; vm_compute; reflexivity ].
Qed.

Lemma catalog_cumulative_witness :
  Dict.get tier_levels "free" = Some 0
  /\ Dict.get tier_levels "pro" = Some 2
  /\ 0 < 2
  /\ (forall f, str_in f (available_features "free") = true ->
                str_in f (available_features "pro") = true)
  /\ (forall f, str_in f (Dict.get_default TIER_FEATURES "free" []) = true ->
                str_in f (Dict.get_default TIER_FEATURES "pro" []) = true)
  /\ (forall f l1 l2, tier_limit "free" f = Some l1 ->
                      tier_limit "pro" f = Some l2 -> l1 <= l2).
Proof.
  split; [reflexivity|]. split; [reflexivity|]. split; [lia|].
  apply (catalog_cumulative "free" "pro" 0 2); [reflexivity | reflexivity | lia].
Defined.

(** ** Tier resolution *)

(** The tier resolver maps an absent or inactive subscription to the free
    tier, whatever the row's tier field says. *)
Lemma get_user_tier_inactive (db : DB) (uid : UUID) :
  match get_user_subscription db uid with
  | None => True
  | Some s => status s <> "active"
  end ->
  get_user_tier db uid = "free".
Proof.
  unfold get_user_tier, is_active.
  destruct (get_user_subscription db uid) as [s|]; [|reflexivity].
  intros H. destruct (String.eqb_spec (status s) "active"); [contradiction|].
  reflexivity.
Qed.

(** Every decision taken through the resolver is then the free tier's. *)
Lemma service_checks_inactive (clk : Clock) (db : DB) (uid : UUID)
    (feature : string) :
  get_user_tier db uid = "free" ->
  check_feature_access db uid feature
  = str_in feature (available_features "free")
  /\ fst (check_usage_limit clk db uid feature)
     = match tier_limit "free" feature with
       | Some limit => 0 <? Z.max 0 (limit - counter clk db uid feature)
       | None => true
       end.
Proof.
  intros H. unfold check_feature_access, check_usage_limit. rewrite H.
  split; [reflexivity|].
  unfold tier_limit, counter.
  now destruct (Dict.get (Dict.get_default TIER_LIMITS "free" []) feature).
Qed.

(** [verify_subscription_tier] decides on the stored tier field alone: the
    rank comparison reads [User.subscription_tier], which never looks at
    the status. *)
Lemma verify_subscription_tier_decides_on_row (db : DB) (u : User)
    (s : UserSubscription) (required : string) :
  user_subscription db u = Some s ->
  Dict.get_default tier_levels required 0
  <= Dict.get_default tier_levels (subscription_tier s) 0 ->
  verify_subscription_tier required u db = (Return u, db).
Proof.
  intros Hs Hle.
  unfold verify_subscription_tier, bind, read, ret, is_tier_or_higher,
    user_subscription_tier.
  rewrite Hs. apply Z.leb_le in Hle. now rewrite Hle.
Qed.

(** C3 (code defect): the resolver returns "free" for a past-due pro
    subscription, and yet [verify_subscription_tier "pro"] lets the user
    through, while it answers 402 to a user without any subscription. *)
Theorem verify_subscription_tier_ignores_status :
  get_user_tier db_past_due_pro (id alice) = "free"
  /\ verify_subscription_tier "pro" alice db_past_due_pro
     = (Return alice, db_past_due_pro)
  /\ verify_subscription_tier "pro" alice db_empty
     = (Raise (mkHTTPException 402 "This feature requires a Pro subscription"
                 [ ("X-Current-Tier", "free"); ("X-Required-Tier", "pro");
                   ("X-Upgrade-Required", "true") ]),
        db_empty).
Proof. repeat split. Qed.

(** ** Tiers outside the catalog *)

(** The walk of [check_feature_access] stops at no tier it does not know
    and so ends with every feature of the catalog; the limit table of an
    unknown tier is empty. *)
Lemma unknown_tier_lookups (tier : string) :
  Dict.contains TIER_FEATURES tier = false ->
  available_features tier
  = concat (map snd TIER_FEATURES)
  /\ forall feature, tier_limit tier feature = None
  /\ Dict.get_default tier_levels tier 0 = 0.
Proof.
  unfold Dict.contains, tier_limit, Dict.get_default, available_features,
    TIER_FEATURES, TIER_LIMITS, tier_levels.
  cbn [Dict.get collect_features].
  destruct (String.eqb "free" tier); [discriminate|].
  destruct (String.eqb "premium" tier); [discriminate|].
  destruct (String.eqb "pro" tier); [discriminate|].
  intros _. split; [reflexivity|]. intros feature. split; reflexivity.
Qed.

(** C4 (code defect): with an active subscription of tier "enterprise",
    which the catalog does not know, the resolver returns the tier
    verbatim, the feature check grants a pro-only feature that it denies
    to a free user, and the usage checks report no limit where the free
    tier has 10; only the rank comparison of the user model treats the
    tier as free. *)
Theorem unknown_tier_not_treated_as_free :
  get_user_tier db_enterprise (id alice) = "enterprise"
  /\ Dict.contains TIER_FEATURES "enterprise" = false
  /\ check_feature_access db_enterprise (id alice) "custom_pathways" = true
  /\ check_feature_access db_empty (id alice) "custom_pathways" = false
  /\ check_usage_limit clock0 db_enterprise (id alice) "ask_questions"
     = (true, 9999)
  /\ check_usage_limit clock0 db_empty (id alice) "ask_questions"
     = (true, 10)
  /\ check_rate_limit clock0 db_enterprise (id alice) "ask_questions"
     = (true, 9999,
        mkMetadata "enterprise" "none" None None None None None)
  /\ is_tier_or_higher db_enterprise alice "premium" = false.
Proof. repeat split. Qed.

(** ** Features without a configured limit *)

(** C5, as stated, fails on the check-and-track path: "basic_ask" has no
    limit at the free tier, and yet [increment_and_check] does not leave
    the store alone and does not return the sentinel. *)
Lemma increment_and_check_counts_untracked :
  ~ (forall clk db uid feature amount,
        tier_limit (get_user_tier db uid) feature = None ->
        exists metadata,
          increment_and_check clk uid feature amount db
          = (Return (true, 9999, metadata), db)).
Proof.
  intros H.
  destruct (H clock0 db_empty 1%N "basic_ask" 1 eq_refl) as (md & E).
  vm_compute in E. discriminate E.
Qed.

(** C5 (amended): for a feature without a configured limit at the user's
    tier, [check_rate_limit] answers allowed, 9999, limit type "none", and
    its answer does not depend on the usage table; [increment_and_check]
    with a positive amount is allowed with limit type "none" as well, but
    it does call [increment_usage]: the counter advances by
    [min(amount, 9999)] and the remaining it returns is 9999 less that
    increment. *)
Theorem untracked_feature (clk : Clock) (db : DB) (uid : UUID)
    (feature : string) (amount : Z) :
  tier_limit (get_user_tier db uid) feature = None ->
  0 < amount ->
  check_rate_limit clk db uid feature
  = (true, 9999,
     mkMetadata (get_user_tier db uid) "none" None None None None None)
  /\ (forall rows,
        check_rate_limit clk (set_feature_usage rows db) uid feature
        = check_rate_limit clk db uid feature)
  /\ exists db',
       increment_and_check clk uid feature amount db
       = (Return (true, 9999 - Z.min amount 9999,
                  mkMetadata (get_user_tier db uid) "none" None None None
                    None (Some (9999 - Z.min amount 9999))),
          db')
       /\ counter clk db' uid feature
          = counter clk db uid feature + Z.min amount 9999
       /\ user_subscriptions db' = user_subscriptions db
       /\ subscription_events db' = subscription_events db.
Proof.
  intros Hl Ha. unfold tier_limit in Hl.
  assert (Hc : check_rate_limit clk db uid feature
               = (true, 9999,
                  mkMetadata (get_user_tier db uid) "none" None None None
                    None None)).
  { unfold check_rate_limit. now rewrite Hl. }
  split; [exact Hc|]. split.
  - intros rows. rewrite Hc. unfold check_rate_limit.
    rewrite (get_user_tier_frame db (set_feature_usage rows db) uid eq_refl).
    now rewrite Hl.
  - unfold increment_and_check, bind, read. rewrite Hc.
    destruct (increment_usage_spec clk uid feature (Z.min amount 9999) db)
      as (db' & Hi & Hcount & Hsub & Hev).
    rewrite Hi. unfold ret, set_remaining.
    cbn [md_tier md_limit_type md_reset_seconds md_reset_time md_limit
         md_upgrade_required].
    replace (Z.max 0 (9999 - Z.min amount 9999))
      with (9999 - Z.min amount 9999) by lia.
    exists db'. repeat split; assumption.
Qed.

Lemma untracked_feature_witness :
  tier_limit (get_user_tier db_empty 1%N) "basic_ask" = None
  /\ 0 < 1
  /\ check_rate_limit clock0 db_empty 1%N "basic_ask"
     = (true, 9999,
        mkMetadata (get_user_tier db_empty 1%N) "none" None None None None
          None)
  /\ (forall rows,
        check_rate_limit clock0 (set_feature_usage rows db_empty) 1%N
          "basic_ask"
        = check_rate_limit clock0 db_empty 1%N "basic_ask")
  /\ exists db',
       increment_and_check clock0 1%N "basic_ask" 1 db_empty
       = (Return (true, 9999 - Z.min 1 9999,
                  mkMetadata (get_user_tier db_empty 1%N) "none" None None
                    None None (Some (9999 - Z.min 1 9999))),
          db')
       /\ counter clock0 db' 1%N "basic_ask"
          = counter clock0 db_empty 1%N "basic_ask" + Z.min 1 9999
       /\ user_subscriptions db' = user_subscriptions db_empty
       /\ subscription_events db' = subscription_events db_empty.
Proof.
  split; [reflexivity|]. split; [lia|].
  apply (untracked_feature clock0 db_empty 1%N "basic_ask" 1);
    [reflexivity | lia].
Defined.

(** ** Amounts that are not positive *)

(** C6 (code defect): nothing rejects an amount below 1.  With 8 of 10
    questions used and amount -3, the call is allowed, [increment_usage]
    is called with -3 and the stored counter drops to 5; with amount 0 the
    call is allowed and the store is still written (by 0). *)
Theorem increment_and_check_accepts_nonpositive :
  increment_and_check clock0 1%N "ask_questions" (-3) (db_asked 8)
  = (Return (true, 5,
             mkMetadata "free" "daily" (Some 82800) (Some 20001) (Some 10)
               (Some false) (Some 5)),
     db_asked 5)
  /\ counter clock0 (db_asked 8) 1%N "ask_questions" = 8
  /\ counter clock0 (db_asked 5) 1%N "ask_questions" = 5
  /\ increment_and_check clock0 1%N "ask_questions" 0 db_empty
     = (Return (true, 10,
                mkMetadata "free" "daily" (Some 82800) (Some 20001) (Some 10)
                  (Some false) (Some 10)),
        db_asked 0).
Proof. repeat split. Qed.

(** ** The tier a feature requires *)

Lemma required_tier_unfold (f : string) :
  required_tier f
  = if str_in f (tier_features "free") then Some "free"
    else if str_in f (tier_features "premium") then Some "premium"
    else if str_in f (tier_features "pro") then Some "pro"
    else None.
Proof. reflexivity. Qed.

Lemma available_features_unfold (t : string) :
  available_features t
  = if String.eqb "free" t then tier_features "free"
    else if String.eqb "premium" t
         then tier_features "free" ++ tier_features "premium"
         else (tier_features "free" ++ tier_features "premium")
              ++ tier_features "pro".
Proof.
  unfold available_features, TIER_FEATURES. cbn [collect_features].
  destruct (String.eqb "free" t); [reflexivity|].
  destruct (String.eqb "premium" t); [reflexivity|].
  destruct (String.eqb "pro" t); reflexivity.
Qed.

Lemma available_features_premium :
  available_features "premium"
  = tier_features "free" ++ tier_features "premium".
Proof. reflexivity. Qed.

Lemma available_features_pro :
  available_features "pro"
  = (tier_features "free" ++ tier_features "premium") ++ tier_features "pro".
Proof. reflexivity. Qed.

Lemma feature_exists_unfold (f : string) :
  feature_exists f
  = str_in f (tier_features "free")
    || (str_in f (tier_features "premium")
        || (str_in f (tier_features "pro") || false)).
Proof. reflexivity. Qed.

(** A feature of no tier is reachable at no tier, known or not. *)
Lemma unknown_feature_unreachable (f t : string) :
  feature_exists f = false -> str_in f (available_features t) = false.
Proof.
  rewrite feature_exists_unfold, available_features_unfold.
  destruct (str_in f (tier_features "free")) eqn:EF; [discriminate|].
  destruct (str_in f (tier_features "premium")) eqn:EP; [discriminate|].
  destruct (str_in f (tier_features "pro")) eqn:ER; [discriminate|].
  intros _.
  destruct (String.eqb "free" t); [exact EF|].
  destruct (String.eqb "premium" t);
    rewrite ?str_in_app, ?EF, ?EP, ?ER; reflexivity.
Qed.

(** C8, as stated, fails for one of the two callers: for a feature that
    exists in no tier, [verify_feature_access] does not report an unknown
    feature; it raises the 402 of a locked one. *)
Lemma verify_feature_access_unknown_is_locked :
  ~ (forall db u f,
        feature_exists f = false ->
        forall e db',
          verify_feature_access f u db = (Raise e, db') ->
          status_code e <> 402).
Proof.
  intros H.
  apply (H db_empty alice "time_travel" eq_refl
           (mkHTTPException 402
              "This feature requires a higher subscription tier"
              [ ("X-Current-Tier", "free"); ("X-Required-Tier", "premium");
                ("X-Feature-Name", "time_travel");
                ("X-Upgrade-Required", "true") ])
           db_empty);
    reflexivity.
Qed.

(** C8 (amended): the scan for the required tier returns the lowest-ranked
    tier whose cumulative feature set holds the feature, and none exactly
    when no tier lists it.  On none, the feature-access route answers 404
    (feature not found), whereas [verify_feature_access] falls back to
    "premium" and raises the same 402 as for a locked feature. *)
Theorem required_tier_lowest (f : string) :
  match required_tier f with
  | Some t =>
      exists r,
        Dict.get tier_levels t = Some r
        /\ feature_exists f = true
        /\ str_in f (available_features t) = true
        /\ forall t' r',
             Dict.get tier_levels t' = Some r' -> r' < r ->
             str_in f (available_features t') = false
  | None =>
      feature_exists f = false
      /\ (forall t, str_in f (available_features t) = false)
      /\ forall u db,
           route_check_feature_access f u db
           = (Raise (mkHTTPException 404
                       ("Feature '" ++ f ++ "' not found")%string []),
              db)
           /\ verify_feature_access f u db
              = (Raise (mkHTTPException 402
                          "This feature requires a higher subscription tier"
                          [ ("X-Current-Tier", get_user_tier db (id u));
                            ("X-Required-Tier", "premium");
                            ("X-Feature-Name", f);
                            ("X-Upgrade-Required", "true") ]),
                 db)
  end.
Proof.
  pose proof (unknown_feature_unreachable f) as Hun.
  assert (Hreq := required_tier_unfold f).
  rewrite feature_exists_unfold in *.
  destruct (str_in f (tier_features "free")) eqn:EF;
    [| destruct (str_in f (tier_features "premium")) eqn:EP;
       [| destruct (str_in f (tier_features "pro")) eqn:ER ] ];
    rewrite Hreq.
  - exists 0. repeat split.
    + exact EF.
    + intros t' r' Ht' Hlt.
      apply tier_levels_inv in Ht'. lia.
  - exists 1. repeat split.
    + rewrite available_features_premium, str_in_app, EP.
      apply orb_true_r.
    + intros t' r' Ht' Hlt.
      apply tier_levels_inv in Ht'.
      destruct Ht' as [[-> ->]|[[-> ->]|[-> ->]]]; try lia.
      exact EF.
  - exists 2. repeat split.
    + rewrite available_features_pro, str_in_app, ER.
      apply orb_true_r.
    + intros t' r' Ht' Hlt.
      apply tier_levels_inv in Ht'.
      destruct Ht' as [[-> ->]|[[-> ->]|[-> ->]]]; try lia.
      * exact EF.
      * now rewrite available_features_premium, str_in_app, EF, EP.
  - split; [reflexivity|]. split; [intros t; now apply Hun|].
    intros u db.
    unfold route_check_feature_access, verify_feature_access,
      check_feature_access, bind, read, raise.
    rewrite (Hun _ eq_refl), Hreq, feature_exists_unfold, EF, EP, ER.
    split; reflexivity.
Qed.

(** ** Lifecycle events *)

Lemma find_modify_first (uid : UUID)
    (f : UserSubscription -> UserSubscription)
    (rows : list UserSubscription) :
  (forall s, user_id (f s) = user_id s) ->
  find (fun s => N.eqb (user_id s) uid) (modify_first uid f rows)
  = option_map f (find (fun s => N.eqb (user_id s) uid) rows).
Proof.
  intros Hid.
  induction rows as [|s rest IH]; simpl; [reflexivity|].
  destruct (N.eqb (user_id s) uid) eqn:E; simpl.
  - now rewrite Hid, E.
  - now rewrite E.
Qed.

(** [update_subscription] with a new, non-empty tier stores the tier and
    appends one event that carries the tier held before and the tier held
    after. *)
Lemma update_subscription_records_change (db : DB) (uid : UUID)
    (s : UserSubscription) (u : SubscriptionUpdate) (tier : string) :
  get_user_subscription db uid = Some s ->
  upd_subscription_tier u = Some tier ->
  truthy tier = true ->
  tier <> subscription_tier s ->
  exists db',
    update_subscription uid u db = (Return (apply_update u s), db')
    /\ get_user_subscription db' uid = Some (apply_update u s)
    /\ subscription_tier (apply_update u s) = tier
    /\ subscription_events db'
       = subscription_events db
         ++ [mkSubscriptionEvent uid "subscription_changed"
               (Some (subscription_tier s)) (Some tier)].
Proof.
  intros Hs Ht Htruthy Hneq.
  unfold update_subscription, bind, read, write, ret,
    _record_subscription_event.
  rewrite Hs, Ht, Htruthy.
  destruct (String.eqb_spec (subscription_tier s) tier) as [E|_];
    [now elim Hneq|].
  cbn [andb negb]. unfold bind, write, ret.
  eexists. split; [reflexivity|]. cbn [subscription_events].
  repeat split.
  - unfold get_user_subscription in *. cbn [user_subscriptions].
    unfold set_user_subscriptions. cbn [user_subscriptions].
    rewrite find_modify_first by reflexivity. now rewrite Hs.
  - unfold apply_update. cbn [subscription_tier]. now rewrite Ht.
Qed.

(** An immediate cancellation always logs "free" as the previous tier: the
    event is built from the row after the row was set to "free". *)
Lemma cancel_immediate_event (db : DB) (uid : UUID) (s : UserSubscription) :
  get_user_subscription db uid = Some s ->
  exists db',
    cancel_subscription uid true db = (Return (cancel_now s), db')
    /\ get_user_subscription db' uid = Some (cancel_now s)
    /\ subscription_events db'
       = subscription_events db
         ++ [mkSubscriptionEvent uid "subscription_canceled_immediate"
               (Some "free") (Some "free")].
Proof.
  intros Hs.
  unfold cancel_subscription, bind, read, write, ret,
    _record_subscription_event.
  rewrite Hs. unfold bind, write, ret.
  eexists. split; [reflexivity|]. cbn [subscription_events].
  split; [|reflexivity].
  unfold get_user_subscription in *. unfold set_user_subscriptions.
  cbn [user_subscriptions].
  rewrite find_modify_first by reflexivity. now rewrite Hs.
Qed.

(** C9 (code defect): cancelling an active premium subscription
    immediately moves the tier from "premium" to "free", and the event
    appended says previous tier "free"; the same change made through
    [update_subscription] logs previous tier "premium". *)
Theorem cancel_immediate_logs_wrong_previous_tier :
  get_user_tier db_premium (id alice) = "premium"
  /\ cancel_subscription (id alice) true db_premium
     = (Return (alice_subscription "free" "canceled"),
        mkDB [alice_subscription "free" "canceled"] []
          [mkSubscriptionEvent 1%N "subscription_canceled_immediate"
             (Some "free") (Some "free")])
  /\ subscription_events
       (exec (update_subscription (id alice)
                (mkSubscriptionUpdate (Some "free") None None None None None
                   None))
          db_premium)
     = [mkSubscriptionEvent 1%N "subscription_changed"
          (Some "premium") (Some "free")].
Proof. repeat split. Qed.

(** ** Tracking without gating *)

(** A denied check reports nothing remaining. *)
Lemma check_rate_limit_denied (clk : Clock) (db : DB) (uid : UUID)
    (feature : string) :
  fst (fst (check_rate_limit clk db uid feature)) = false ->
  snd (fst (check_rate_limit clk db uid feature)) = 0.
Proof.
  unfold check_rate_limit, check_usage_limit.
  destruct (Dict.get _ feature) as [limit|]; cbn [fst snd].
  - intros H. apply Z.ltb_ge in H. lia.
  - discriminate.
Qed.

(** The quota of the free tier is used up: [verify_usage_limit] answers
    429, [track_usage] returns the user, writes nothing, and reports 0
    remaining in the headers. *)
Example track_usage_after_quota :
  (exists e, verify_usage_limit clock0 "ask_questions" (mkRequest None) alice
               (db_asked 10) = (Raise e, db_asked 10)
             /\ status_code e = 429)
  /\ track_usage clock0 "ask_questions" 1 (mkRequest None) alice (db_asked 10)
     = (Return (alice,
                mkRequest (Some [ ("X-RateLimit-Limit", "10");
                                  ("X-RateLimit-Remaining", "0");
                                  ("X-RateLimit-Reset", "82800");
                                  ("X-Tier-Level", "free");
                                  ("X-Upgrade-Required", "true") ])),
        db_asked 10).
Proof. split; [eexists; split|]; reflexivity. Qed.

(** C10: [track_usage] returns the current user in every state and for
    every feature and amount; a route whose only dependency it is runs its
    endpoint; and when the check denies the call, the database is left as
    it was and the denial shows only in the headers put on the request,
    which report 0 remaining. *)
Theorem track_usage_never_rejects (clk : Clock) (feature : string)
    (amount : Z) (request : Request) (current_user : User) (db : DB) :
  exists request' db',
    track_usage clk feature amount request current_user db
    = (Return (current_user, request'), db')
    /\ (forall A (endpoint : User -> Request -> M A),
          guarded_route [track_usage clk feature amount] endpoint request
            current_user db
          = endpoint current_user request' db')
    /\ (fst (fst (check_rate_limit clk db (id current_user) feature)) = false ->
        db' = db
        /\ rate_limit_headers request'
           = Some (get_rate_limit_headers false 0
                     (snd (check_rate_limit clk db (id current_user)
                             feature)))).
Proof.
  pose proof (check_rate_limit_denied clk db (id current_user) feature)
    as Hzero.
  unfold guarded_route, resolve, track_usage, increment_and_check, bind, read.
  destruct (check_rate_limit clk db (id current_user) feature)
    as [[allowed remaining] metadata].
  cbn [fst snd] in *.
  destruct allowed.
  - destruct (increment_usage_spec clk (id current_user) feature
                (Z.min amount remaining) db) as (db' & Hi & _).
    rewrite Hi. unfold ret. cbn [snd].
    do 2 eexists. split; [reflexivity|].
    split; [reflexivity | discriminate].
  - rewrite (Hzero eq_refl). unfold ret. cbn [snd].
    do 2 eexists. split; [reflexivity|].
    split; [reflexivity|]. intros _. split; reflexivity.
Qed.

(** ** Calls made one after the other *)

(** [n] calls with amount 1, each on the state the previous one left: the
    first [limit - count] calls are allowed, all later ones are denied, and
    the counter ends at the limit, or [n] higher if that is less. *)
Lemma track_repeatedly_spec (clk : Clock) (uid : UUID) (feature : string)
    (limit : Z) (n : nat) :
  forall db,
    tier_limit (get_user_tier db uid) feature = Some limit ->
    counter clk db uid feature <= limit ->
    exists db',
      track_repeatedly clk uid feature n db
      = (Return
           (repeat true
              (Nat.min n (Z.to_nat (limit - counter clk db uid feature)))
            ++ repeat false
                 (n - Z.to_nat (limit - counter clk db uid feature))),
         db')
      /\ counter clk db' uid feature
         = counter clk db uid feature
           + Z.of_nat
               (Nat.min n (Z.to_nat (limit - counter clk db uid feature))).
Proof.
  induction n as [|n IH]; intros db Hl Hle.
  - exists db. split; [reflexivity | simpl; lia].
  - destruct (increment_and_check_limited clk db uid feature 1 limit Hl)
      as (md & db1 & Hrun & Hcount & Hsame & Hsub).
    cbn [track_repeatedly]. unfold bind at 1. rewrite Hrun.
    set (c := counter clk db uid feature) in *.
    destruct (Z.ltb_spec c limit) as [Hlt|Hge].
    + assert (Hl1 : tier_limit (get_user_tier db1 uid) feature = Some limit)
        by now rewrite (get_user_tier_frame db db1 uid Hsub).
      destruct (IH db1 Hl1) as (db' & Hrest & Hfinal); [lia|].
      unfold bind. rewrite Hrest. unfold ret. cbn [fst].
      exists db'. rewrite Hfinal, Hcount.
      replace (Z.to_nat (limit - c))
        with (S (Z.to_nat (limit - (c + Z.min 1 (limit - c))))) by lia.
      split; [reflexivity | lia].
    + rewrite (Hsame eq_refl) in *.
      destruct (IH db Hl Hle) as (db' & Hrest & Hfinal).
      unfold bind. rewrite Hrest. unfold ret. cbn [fst].
      exists db'. fold c in Hfinal |- *. rewrite Hfinal.
      replace (Z.to_nat (limit - c)) with 0%nat by lia.
      rewrite Nat.min_0_r, !Nat.sub_0_r. split; reflexivity.
Qed.

(** The scenario of the free tier: eleven questions in a row on a fresh
    counter; ten are allowed, the eleventh is not, the counter is 10. *)
Example eleven_questions :
  track_repeatedly clock0 1%N "ask_questions" 11 db_empty
  = (Return (repeat true 10 ++ [false]), db_asked 10).
Proof. reflexivity. Qed.

(** * Further properties *)

(** ** The usage table as a map from keys to counts *)

Lemma usage_key_key_of (uid : UUID) (feature : string) (day : date)
    (u : FeatureUsage) :
  usage_key uid feature day u = true <-> key_of u = (uid, feature, day).
Proof.
  unfold usage_key, key_of.
  rewrite !andb_true_iff, N.eqb_eq, String.eqb_eq, Z.eqb_eq.
  split.
  - intros [[-> ->] ->]. reflexivity.
  - intros [= -> -> ->]. auto.
Qed.

Lemma usage_key_other (uid uid' : UUID) (feature feature' : string)
    (day day' : date) (u : FeatureUsage) :
  (uid', feature', day') <> (uid, feature, day) ->
  usage_key uid feature day u = true ->
  usage_key uid' feature' day' u = false.
Proof.
  intros Hneq Hk. apply usage_key_key_of in Hk.
  destruct (usage_key uid' feature' day' u) eqn:E; [|reflexivity].
  apply usage_key_key_of in E. congruence.
Qed.

Lemma map_key_of_bump_first (p : FeatureUsage -> bool) (amount : Z)
    (rows : list FeatureUsage) :
  map key_of (bump_first p amount rows) = map key_of rows.
Proof.
  induction rows as [|u rest IH]; simpl; [reflexivity|].
  destruct (p u); simpl; [reflexivity | now rewrite IH].
Qed.

Lemma find_usage_none_not_in (uid : UUID) (feature : string) (day : date)
    (rows : list FeatureUsage) :
  find (usage_key uid feature day) rows = None ->
  ~ In (uid, feature, day) (map key_of rows).
Proof.
  intros Hnone Hin. apply in_map_iff in Hin. destruct Hin as (u & Hk & Hu).
  apply (find_none _ _ Hnone) in Hu.
  apply usage_key_key_of in Hk. congruence.
Qed.

Lemma find_other_bump_first (uid uid' : UUID) (feature feature' : string)
    (day day' : date) (amount : Z) (rows : list FeatureUsage) :
  (uid', feature', day') <> (uid, feature, day) ->
  find (usage_key uid' feature' day')
    (bump_first (usage_key uid feature day) amount rows)
  = find (usage_key uid' feature' day') rows.
Proof.
  intros Hneq.
  induction rows as [|u rest IH]; simpl; [reflexivity|].
  destruct (usage_key uid feature day u) eqn:Hk; simpl.
  - rewrite (usage_key_other uid uid' feature feature' day day' u Hneq Hk).
    assert (E : usage_key uid' feature' day'
                  (mkFeatureUsage (fu_user_id u) (feature_name u)
                     (usage_date u) (usage_count u + amount)) = false)
      by (apply (usage_key_other uid uid' feature feature' day day');
          [exact Hneq | exact Hk]).
    now rewrite E.
  - destruct (usage_key uid' feature' day' u); [reflexivity | exact IH].
Qed.

Lemma find_other_append (uid uid' : UUID) (feature feature' : string)
    (day day' : date) (n : Z) (rows : list FeatureUsage) :
  (uid', feature', day') <> (uid, feature, day) ->
  find (usage_key uid' feature' day')
    (rows ++ [mkFeatureUsage uid feature day n])
  = find (usage_key uid' feature' day') rows.
Proof.
  intros Hneq.
  induction rows as [|u rest IH]; simpl.
  - now rewrite (usage_key_other uid uid' feature feature' day day' _ Hneq
                   (usage_key_self uid feature day n)).
  - destruct (usage_key uid' feature' day' u); [reflexivity | exact IH].
Qed.

(** [increment_usage] touches one key only. *)
Lemma increment_usage_other_key (clk : Clock) (uid uid' : UUID)
    (feature feature' : string) (day' : date) (amount : Z) (db : DB) :
  (uid', feature', day') <> (uid, feature, today clk) ->
  used_today (exec (increment_usage clk uid feature amount) db)
    uid' feature' day'
  = used_today db uid' feature' day'.
Proof.
  intros Hneq.
  unfold exec, increment_usage, bind, read, write, ret, used_today,
    query_usage.
  destruct (find (usage_key uid feature (today clk)) (feature_usage db));
    cbn [snd feature_usage set_feature_usage].
  - now rewrite find_other_bump_first.
  - now rewrite find_other_append.
Qed.

(** [increment_usage] keeps the unique index. *)
Lemma increment_usage_keys_unique (clk : Clock) (uid : UUID)
    (feature : string) (amount : Z) (db : DB) :
  usage_keys_unique db ->
  usage_keys_unique (exec (increment_usage clk uid feature amount) db).
Proof.
  unfold usage_keys_unique, exec, increment_usage, bind, read, write, ret,
    query_usage.
  intros Hu.
  destruct (find (usage_key uid feature (today clk)) (feature_usage db))
    eqn:Hq; cbn [snd feature_usage set_feature_usage].
  - now rewrite map_key_of_bump_first.
  - rewrite map_app. cbn [map key_of fu_user_id feature_name usage_date].
    apply NoDup_rev in Hu.
    apply find_usage_none_not_in in Hq.
    rewrite <- (rev_involutive (map key_of (feature_usage db) ++ _)).
    apply NoDup_rev. rewrite rev_app_distr. cbn [rev app].
    constructor; [|exact Hu].
    now rewrite <- in_rev.
Qed.

(** What [increment_and_check] does to the database: nothing, or one
    [increment_usage]. *)
Lemma increment_and_check_exec (clk : Clock) (uid : UUID) (feature : string)
    (amount : Z) (db : DB) :
  exec (increment_and_check clk uid feature amount) db = db
  \/ exists n,
       exec (increment_and_check clk uid feature amount) db
       = exec (increment_usage clk uid feature n) db.
Proof.
  unfold exec at 1 2. unfold increment_and_check, bind, read.
  destruct (check_rate_limit clk db uid feature) as [[allowed remaining] md].
  destruct allowed; [|left; reflexivity].
  right. exists (Z.min amount remaining). unfold exec.
  destruct (increment_usage_spec clk uid feature (Z.min amount remaining) db)
    as (db' & Hi & _).
  rewrite Hi. reflexivity.
Qed.

(** X1: [increment_usage] returns the new count of its key, never raises,
    and acts on the table as a map update: afterwards the key reads
    [amount] more than before (a key without a row counts as 0) and every
    other key reads what it read before; subscriptions and events are
    untouched. *)
Theorem increment_usage_effect (clk : Clock) (uid uid' : UUID)
    (feature feature' : string) (day' : date) (amount : Z) (db : DB) :
  fst (increment_usage clk uid feature amount db)
  = Return (used_today db uid feature (today clk) + amount)
  /\ used_today (exec (increment_usage clk uid feature amount) db)
       uid' feature' day'
     = used_today db uid' feature' day'
       + (if N.eqb uid' uid && String.eqb feature' feature
             && Z.eqb day' (today clk)
          then amount else 0)
  /\ user_subscriptions (exec (increment_usage clk uid feature amount) db)
     = user_subscriptions db
  /\ subscription_events (exec (increment_usage clk uid feature amount) db)
     = subscription_events db.
Proof.
  destruct (increment_usage_spec clk uid feature amount db)
    as (db' & Hi & Hc & Hs & He).
  unfold exec. rewrite Hi. cbn [fst snd]. unfold counter in *.
  repeat split; try assumption.
  destruct (N.eqb uid' uid && String.eqb feature' feature
            && Z.eqb day' (today clk)) eqn:E.
  - apply andb_true_iff in E. destruct E as [E Ed].
    apply andb_true_iff in E. destruct E as [Eu Ef].
    apply N.eqb_eq in Eu. apply String.eqb_eq in Ef. apply Z.eqb_eq in Ed.
    subst. exact Hc.
  - rewrite Z.add_0_r.
    replace db' with (exec (increment_usage clk uid feature amount) db)
      by (unfold exec; now rewrite Hi).
    apply increment_usage_other_key.
    intros [= -> -> ->].
    now rewrite N.eqb_refl, String.eqb_refl, Z.eqb_refl in E.
Qed.

(** X2: [increment_and_check] changes nothing but today's counter of its
    own user and feature: the counters of other users, other features and
    other days, the subscriptions and the event log are as before. *)
Theorem increment_and_check_frame (clk : Clock) (uid : UUID)
    (feature : string) (amount : Z) (db : DB) :
  user_subscriptions (exec (increment_and_check clk uid feature amount) db)
  = user_subscriptions db
  /\ subscription_events
       (exec (increment_and_check clk uid feature amount) db)
     = subscription_events db
  /\ forall uid' feature' day',
       (uid', feature', day') <> (uid, feature, today clk) ->
       used_today (exec (increment_and_check clk uid feature amount) db)
         uid' feature' day'
       = used_today db uid' feature' day'.
Proof.
  destruct (increment_and_check_exec clk uid feature amount db)
    as [E | [n E]]; rewrite E.
  - repeat split.
  - destruct (increment_usage_spec clk uid feature n db)
      as (db' & Hi & _ & Hs & He).
    split; [|split].
    + unfold exec. now rewrite Hi.
    + unfold exec. now rewrite Hi.
    + intros uid' feature' day' Hneq.
      now apply increment_usage_other_key.
Qed.

(** X3: the get-or-create of [increment_usage] never makes a second row
    for a key: a usage table that satisfies the unique index satisfies it
    after [increment_and_check]. *)
Theorem increment_and_check_keys_unique (clk : Clock) (uid : UUID)
    (feature : string) (amount : Z) (db : DB) :
  usage_keys_unique db ->
  usage_keys_unique (exec (increment_and_check clk uid feature amount) db).
Proof.
  intros Hu.
  destruct (increment_and_check_exec clk uid feature amount db)
    as [E | [n E]]; rewrite E.
  - exact Hu.
  - now apply increment_usage_keys_unique.
Qed.

Lemma increment_and_check_keys_unique_witness :
  usage_keys_unique db_two_users
  /\ usage_keys_unique
       (exec (increment_and_check clock0 2%N "journal_entries" 1)
          db_two_users).
Proof.
  assert (H : usage_keys_unique db_two_users).
  { unfold usage_keys_unique, db_two_users. cbn.
    repeat constructor; cbn; intuition discriminate. }
  split; [exact H|].
  apply (increment_and_check_keys_unique clock0 2%N "journal_entries" 1
           db_two_users).
  exact H.
Defined.

(** ** The day boundary *)

Lemma in_bump_first_date (p : FeatureUsage -> bool) (amount : Z)
    (rows : list FeatureUsage) (u : FeatureUsage) :
  In u (bump_first p amount rows) ->
  exists u0, In u0 rows /\ usage_date u = usage_date u0.
Proof.
  induction rows as [|v rest IH]; simpl; [contradiction|].
  destruct (p v); simpl.
  - intros [<-|Hin]; [exists v; auto | exists u; auto].
  - intros [<-|Hin]; [exists v; auto|].
    destruct (IH Hin) as (u0 & H0 & E). exists u0; auto.
Qed.

(** Rows are only ever written for the current day. *)
Lemma increment_usage_dates (clk : Clock) (uid : UUID) (feature : string)
    (amount : Z) (db : DB) (u : FeatureUsage) :
  (forall v, In v (feature_usage db) -> usage_date v <= today clk) ->
  In u (feature_usage (exec (increment_usage clk uid feature amount) db)) ->
  usage_date u <= today clk.
Proof.
  unfold exec, increment_usage, bind, read, write, ret, query_usage.
  intros Hold.
  destruct (find (usage_key uid feature (today clk)) (feature_usage db));
    cbn [snd feature_usage set_feature_usage]; intros Hin.
  - apply in_bump_first_date in Hin. destruct Hin as (u0 & H0 & ->).
    now apply Hold.
  - apply in_app_or in Hin. destruct Hin as [Hin|[<-|[]]].
    + now apply Hold.
    + cbn. lia.
Qed.

(** X4: day-boundary reset.  If no usage row is dated after the day of
    the call, none is after [increment_and_check], and on any later day
    every counter of every user reads 0, whatever was used before. *)
Theorem counters_reset_on_a_later_day (clk later : Clock) (uid : UUID)
    (feature : string) (amount : Z) (db : DB) :
  (forall v, In v (feature_usage db) -> usage_date v <= today clk) ->
  today clk < today later ->
  (forall v,
      In v (feature_usage
              (exec (increment_and_check clk uid feature amount) db)) ->
      usage_date v <= today clk)
  /\ forall uid' feature',
       counter later (exec (increment_and_check clk uid feature amount) db)
         uid' feature' = 0.
Proof.
  intros Hold Hlater.
  assert (Hnew : forall v,
             In v (feature_usage
                     (exec (increment_and_check clk uid feature amount) db)) ->
             usage_date v <= today clk).
  { destruct (increment_and_check_exec clk uid feature amount db)
      as [E | [n E]]; rewrite E; [exact Hold|].
    intros v. now apply increment_usage_dates. }
  split; [exact Hnew|].
  intros uid' feature'. unfold counter, used_today, query_usage.
  destruct (find _ _) as [u|] eqn:Hf; [|reflexivity].
  apply find_some in Hf. destruct Hf as [Hin Hk].
  apply usage_key_key_of in Hk. injection Hk as _ _ Hd.
  apply Hnew in Hin. lia.
Qed.

Lemma counters_reset_on_a_later_day_witness :
  (forall v, In v (feature_usage db_two_users) -> usage_date v <= today clock0)
  /\ today clock0 < today (mkClock 20001 0)
  /\ (forall v,
        In v (feature_usage
                (exec (increment_and_check clock0 1%N "ask_questions" 1)
                   db_two_users)) ->
        usage_date v <= today clock0)
  /\ forall uid' feature',
       counter (mkClock 20001 0)
         (exec (increment_and_check clock0 1%N "ask_questions" 1)
            db_two_users)
         uid' feature' = 0.
Proof.
  assert (H : forall v, In v (feature_usage db_two_users) ->
                        usage_date v <= today clock0).
  { cbn. intros v [<-|[<-|[<-|[]]]]; cbn; lia. }
  split; [exact H|]. split; [cbn; lia|].
  apply (counters_reset_on_a_later_day clock0 (mkClock 20001 0) 1%N
           "ask_questions" 1 db_two_users); [exact H | cbn; lia].
Defined.

(** X5 is [track_repeatedly_spec] above: [n] calls with amount 1 in a row
    allow exactly the first [limit - count] of them. *)
Lemma track_repeatedly_spec_witness :
  tier_limit (get_user_tier (db_asked 8) 1%N) "ask_questions" = Some 10
  /\ counter clock0 (db_asked 8) 1%N "ask_questions" <= 10
  /\ exists db',
       track_repeatedly clock0 1%N "ask_questions" 5 (db_asked 8)
       = (Return
            (repeat true
               (Nat.min 5
                  (Z.to_nat
                     (10 - counter clock0 (db_asked 8) 1%N "ask_questions")))
             ++ repeat false
                  (5 - Z.to_nat
                         (10 - counter clock0 (db_asked 8) 1%N
                                 "ask_questions"))),
          db')
       /\ counter clock0 db' 1%N "ask_questions"
          = counter clock0 (db_asked 8) 1%N "ask_questions"
            + Z.of_nat
                (Nat.min 5
                   (Z.to_nat
                      (10 - counter clock0 (db_asked 8) 1%N
                              "ask_questions"))).
Proof.
  split; [reflexivity|]. split; [cbn; lia|].
  apply (track_repeatedly_spec clock0 1%N "ask_questions" 10 5 (db_asked 8));
    [reflexivity | cbn; lia].
Defined.

(** ** The two checks and the headers *)

(** X6: [check_usage_limit] and [check_rate_limit] look the limit up
    separately and always agree; what remains is never negative, and the
    verdict is "allowed" exactly when something remains. *)
Theorem checks_agree (clk : Clock) (db : DB) (uid : UUID)
    (feature : string) :
  fst (check_rate_limit clk db uid feature)
  = check_usage_limit clk db uid feature
  /\ 0 <= snd (check_usage_limit clk db uid feature)
  /\ fst (check_usage_limit clk db uid feature)
     = (0 <? snd (check_usage_limit clk db uid feature)).
Proof.
  unfold check_rate_limit, check_usage_limit.
  destruct (Dict.get _ feature) as [limit|]; cbn [fst snd].
  - repeat split. lia.
  - repeat split. lia.
Qed.

(** X7: the headers computed from a check name the resolved tier, and ask
    for an upgrade exactly when the call is denied and the tier is not
    "pro"; a feature without limit reports limit 0 and never asks for an
    upgrade. *)
Theorem headers_of_check (clk : Clock) (db : DB) (uid : UUID)
    (feature : string) :
  let '(allowed, remaining, metadata) :=
    check_rate_limit clk db uid feature in
  let hdrs := get_rate_limit_headers allowed remaining metadata in
  Dict.get hdrs "X-Tier-Level" = Some (get_user_tier db uid)
  /\ Dict.get hdrs "X-RateLimit-Remaining" = Some (str_of_int remaining)
  /\ Dict.get hdrs "X-RateLimit-Limit"
     = Some (str_of_int
               (match tier_limit (get_user_tier db uid) feature with
                | Some limit => limit
                | None => 0
                end))
  /\ Dict.get hdrs "X-Upgrade-Required"
     = Some (if negb allowed && negb (String.eqb (get_user_tier db uid) "pro")
             then "true" else "false").
Proof.
  unfold check_rate_limit, check_usage_limit, tier_limit.
  destruct (Dict.get _ feature) as [limit|]; repeat split.
Qed.

(** ** Gating and tracking together *)

(** X22: [verify_usage_limit] in terms of the state.  For a feature
    without limit at the resolved tier it returns the user, with headers
    that show 9999 remaining and no upgrade.  For a limited feature it
    returns the user exactly when today's counter is below the limit, with
    headers that show the limit and the limit minus the counter; at or
    above the limit it raises 429 "Usage limit reached for <feature>", and
    the headers of the error show the limit, 0 remaining, and an upgrade
    request unless the tier is "pro".  The database is the same
    afterwards in every case. *)
Theorem verify_usage_limit_by_counter (clk : Clock) (feature : string)
    (request : Request) (current_user : User) (db : DB) :
  match tier_limit (get_user_tier db (id current_user)) feature with
  | None =>
      exists hdrs,
        verify_usage_limit clk feature request current_user db
        = (Return (current_user, mkRequest (Some hdrs)), db)
        /\ Dict.get hdrs "X-RateLimit-Limit" = Some (str_of_int 0)
        /\ Dict.get hdrs "X-RateLimit-Remaining" = Some (str_of_int 9999)
        /\ Dict.get hdrs "X-Upgrade-Required" = Some "false"
  | Some limit =>
      if counter clk db (id current_user) feature <? limit
      then exists hdrs,
          verify_usage_limit clk feature request current_user db
          = (Return (current_user, mkRequest (Some hdrs)), db)
          /\ Dict.get hdrs "X-RateLimit-Limit" = Some (str_of_int limit)
          /\ Dict.get hdrs "X-RateLimit-Remaining"
             = Some (str_of_int
                       (limit - counter clk db (id current_user) feature))
          /\ Dict.get hdrs "X-Upgrade-Required" = Some "false"
      else exists hdrs,
          verify_usage_limit clk feature request current_user db
          = (Raise (mkHTTPException 429
                      ("Usage limit reached for " ++ feature)%string hdrs),
             db)
          /\ Dict.get hdrs "X-RateLimit-Limit" = Some (str_of_int limit)
          /\ Dict.get hdrs "X-RateLimit-Remaining" = Some (str_of_int 0)
          /\ Dict.get hdrs "X-Upgrade-Required"
             = Some (if String.eqb (get_user_tier db (id current_user)) "pro"
                     then "false" else "true")
  end.
Proof.
  unfold verify_usage_limit, bind, read, raise, ret, tier_limit.
  unfold check_rate_limit, check_usage_limit.
  fold (counter clk db (id current_user) feature).
  set (c := counter clk db (id current_user) feature).
  destruct (Dict.get _ feature) as [limit|].
  - destruct (Z.ltb_spec c limit) as [Hlt|Hge].
    + replace (0 <? Z.max 0 (limit - c)) with true
        by (symmetry; apply Z.ltb_lt; lia).
      replace (Z.max 0 (limit - c)) with (limit - c) by lia.
      eexists. split; [reflexivity|]. repeat split.
    + replace (0 <? Z.max 0 (limit - c)) with false
        by (symmetry; apply Z.ltb_ge; lia).
      replace (Z.max 0 (limit - c)) with 0 by lia.
      eexists. split; [reflexivity|].
      split; [reflexivity|]. split; [reflexivity|].
      cbn [negb andb get_rate_limit_headers md_upgrade_required].
      now destruct (String.eqb (get_user_tier db (id current_user)) "pro").
  - eexists. split; [reflexivity|]. repeat split.
Qed.

(** X8: a route behind [verify_usage_limit] and then [track_usage], for a
    limited feature and a positive amount.  Below the limit the endpoint
    runs and the counter has advanced by [min(amount, limit - count)], so
    by at least 1 and not past the limit; at or above the limit the route
    answers 429, the endpoint does not run and nothing is written. *)
Theorem gate_then_track (clk : Clock) (feature : string) (amount limit : Z)
    (request : Request) (current_user : User) (db : DB) (A : Type)
    (endpoint : User -> Request -> M A) :
  tier_limit (get_user_tier db (id current_user)) feature = Some limit ->
  0 < amount ->
  if counter clk db (id current_user) feature <? limit
  then exists request' db',
      guarded_route
        [verify_usage_limit clk feature; track_usage clk feature amount]
        endpoint request current_user db
      = endpoint current_user request' db'
      /\ counter clk db' (id current_user) feature
         = counter clk db (id current_user) feature
           + Z.min amount (limit - counter clk db (id current_user) feature)
      /\ counter clk db (id current_user) feature
         < counter clk db' (id current_user) feature <= limit
  else exists e,
      guarded_route
        [verify_usage_limit clk feature; track_usage clk feature amount]
        endpoint request current_user db
      = (Raise e, db)
      /\ status_code e = 429.
Proof.
  intros Hl Ha.
  destruct (check_rate_limit_limited clk db (id current_user) feature limit Hl)
    as (md & Hc & _).
  destruct (increment_and_check_limited clk db (id current_user) feature
              amount limit Hl) as (md' & db' & Hrun & Hcount & _).
  set (c := counter clk db (id current_user) feature) in *.
  unfold guarded_route, resolve, verify_usage_limit, track_usage, bind, read.
  rewrite Hc.
  destruct (Z.ltb_spec c limit) as [Hlt|Hge].
  - replace (0 <? Z.max 0 (limit - c)) with true
      by (symmetry; apply Z.ltb_lt; lia).
    cbn [negb]. unfold ret at 1. cbn [snd].
    rewrite Hrun. unfold ret. cbn [snd].
    do 2 eexists. split; [reflexivity|]. split; [exact Hcount | lia].
  - replace (0 <? Z.max 0 (limit - c)) with false
      by (symmetry; apply Z.ltb_ge; lia).
    cbn [negb]. unfold raise.
    eexists. split; reflexivity.
Qed.

Lemma gate_then_track_witness :
  tier_limit (get_user_tier (db_asked 8) (id alice)) "ask_questions" = Some 10
  /\ 0 < 5
  /\ if counter clock0 (db_asked 8) (id alice) "ask_questions" <? 10
     then exists request' db',
         guarded_route
           [verify_usage_limit clock0 "ask_questions";
            track_usage clock0 "ask_questions" 5]
           (fun u _ => ret u) (mkRequest None) alice (db_asked 8)
         = (fun u (_ : Request) => ret u) alice request' db'
         /\ counter clock0 db' (id alice) "ask_questions"
            = counter clock0 (db_asked 8) (id alice) "ask_questions"
              + Z.min 5
                  (10 - counter clock0 (db_asked 8) (id alice)
                          "ask_questions")
         /\ counter clock0 (db_asked 8) (id alice) "ask_questions"
            < counter clock0 db' (id alice) "ask_questions" <= 10
     else exists e,
         guarded_route
           [verify_usage_limit clock0 "ask_questions";
            track_usage clock0 "ask_questions" 5]
           (fun u _ => ret u) (mkRequest None) alice (db_asked 8)
         = (Raise e, db_asked 8)
         /\ status_code e = 429.
Proof.
  split; [reflexivity|]. split; [lia|].
  apply (gate_then_track clock0 "ask_questions" 5 10 (mkRequest None) alice
           (db_asked 8) User (fun u _ => ret u)); [reflexivity | lia].
Defined.

(** ** Feature access and the tier a feature requires *)

(** X9: for a user whose resolved tier is one of the catalog,
    [check_feature_access] grants a feature exactly when the scan for the
    required tier finds a tier ranked no higher than the user's. *)
Theorem access_iff_required_tier_reached (db : DB) (uid : UUID)
    (feature : string) (r : Z) :
  Dict.get tier_levels (get_user_tier db uid) = Some r ->
  check_feature_access db uid feature = true
  <-> exists t' r',
        required_tier feature = Some t'
        /\ Dict.get tier_levels t' = Some r'
        /\ r' <= r.
Proof.
  intros Hr. unfold check_feature_access.
  rewrite required_tier_unfold.
  apply tier_levels_inv in Hr.
  destruct Hr as [[-> ->]|[[-> ->]|[-> ->]]];
    rewrite ?available_features_premium, ?available_features_pro,
      ?str_in_app;
    change (available_features "free") with (tier_features "free");
    destruct (str_in feature (tier_features "free"));
    destruct (str_in feature (tier_features "premium"));
    destruct (str_in feature (tier_features "pro"));
    cbn [orb];
    (split;
     [ intros H;
       first [ discriminate H
             | do 2 eexists; split; [reflexivity|];
               split; [reflexivity | lia] ]
     | intros (t' & r' & Ht' & Hr' & Hle);
       first [ reflexivity
             | discriminate Ht'
             | injection Ht' as <-; injection Hr' as <-; lia ] ]).
Qed.

Lemma access_iff_required_tier_reached_witness :
  Dict.get tier_levels (get_user_tier db_premium 1%N) = Some 1
  /\ (check_feature_access db_premium 1%N "insight_expansion" = true
      <-> exists t' r',
            required_tier "insight_expansion" = Some t'
            /\ Dict.get tier_levels t' = Some r'
            /\ r' <= 1).
Proof.
  split; [reflexivity|].
  apply (access_iff_required_tier_reached db_premium 1%N
           "insight_expansion" 1).
  reflexivity.
Defined.

(** The scan returns a ranked tier, or the feature is in no list. *)
Lemma required_tier_ranked (f : string) :
  match required_tier f with
  | Some t' =>
      exists r', Dict.get tier_levels t' = Some r' /\ truthy t' = true
  | None => feature_exists f = false
  end.
Proof.
  rewrite required_tier_unfold, feature_exists_unfold.
  destruct (str_in f (tier_features "free"));
    [exists 0; split; reflexivity|].
  destruct (str_in f (tier_features "premium"));
    [exists 1; split; reflexivity|].
  destruct (str_in f (tier_features "pro"));
    [exists 2; split; reflexivity|].
  reflexivity.
Qed.

(** X10: for a user whose resolved tier is one of the catalog and a
    feature that exists, [verify_feature_access] writes nothing and either
    returns the user (the feature is reachable) or raises 402 whose
    X-Required-Tier header names the tier found by the scan, which is
    ranked strictly above the user's tier. *)
Theorem verify_feature_access_names_higher_tier (db : DB) (u : User)
    (feature : string) (r : Z) :
  Dict.get tier_levels (get_user_tier db (id u)) = Some r ->
  feature_exists feature = true ->
  if check_feature_access db (id u) feature
  then verify_feature_access feature u db = (Return u, db)
  else exists t' r',
      required_tier feature = Some t'
      /\ Dict.get tier_levels t' = Some r'
      /\ r < r'
      /\ verify_feature_access feature u db
         = (Raise (mkHTTPException 402
                     "This feature requires a higher subscription tier"
                     [ ("X-Current-Tier", get_user_tier db (id u));
                       ("X-Required-Tier", t');
                       ("X-Feature-Name", feature);
                       ("X-Upgrade-Required", "true") ]),
            db).
Proof.
  intros Hr Hex.
  rewrite feature_exists_unfold in Hex.
  unfold verify_feature_access, check_feature_access, bind, read, raise, ret.
  cbv beta. rewrite required_tier_unfold.
  apply tier_levels_inv in Hr.
  destruct Hr as [[E ->]|[[E ->]|[E ->]]]; rewrite E;
    rewrite ?available_features_premium, ?available_features_pro,
      ?str_in_app;
    change (available_features "free") with (tier_features "free");
    destruct (str_in feature (tier_features "free"));
    destruct (str_in feature (tier_features "premium"));
    destruct (str_in feature (tier_features "pro"));
    cbn [orb negb] in *;
    first [ discriminate Hex
          | reflexivity
          | do 2 eexists; split; [reflexivity|];
            split; [reflexivity|];
            split; [lia | cbn; rewrite ?E; reflexivity] ].
Qed.

Lemma verify_feature_access_names_higher_tier_witness :
  Dict.get tier_levels (get_user_tier db_premium (id alice)) = Some 1
  /\ feature_exists "custom_pathways" = true
  /\ if check_feature_access db_premium (id alice) "custom_pathways"
     then verify_feature_access "custom_pathways" alice db_premium
          = (Return alice, db_premium)
     else exists t' r',
         required_tier "custom_pathways" = Some t'
         /\ Dict.get tier_levels t' = Some r'
         /\ 1 < r'
         /\ verify_feature_access "custom_pathways" alice db_premium
            = (Raise (mkHTTPException 402
                        "This feature requires a higher subscription tier"
                        [ ("X-Current-Tier",
                            get_user_tier db_premium (id alice));
                          ("X-Required-Tier", t');
                          ("X-Feature-Name", "custom_pathways");
                          ("X-Upgrade-Required", "true") ]),
               db_premium).
Proof.
  split; [reflexivity|]. split; [reflexivity|].
  apply (verify_feature_access_names_higher_tier db_premium alice
           "custom_pathways" 1); reflexivity.
Defined.

(** ** The rank comparison *)

Lemma tier_level_bounds (t : string) :
  0 <= Dict.get_default tier_levels t 0 <= 2.
Proof.
  unfold Dict.get_default, tier_levels. cbn [Dict.get].
  destruct (String.eqb "free" t); [lia|].
  destruct (String.eqb "premium" t); [lia|].
  destruct (String.eqb "pro" t); lia.
Qed.

(** [verify_subscription_tier] never writes and returns the user exactly
    when the level of the required tier is at most the level of the stored
    tier. *)
Lemma verify_subscription_tier_decides (required : string) (u : User)
    (db : DB) :
  exec (verify_subscription_tier required u) db = db
  /\ (verify_subscription_tier required u db = (Return u, db)
      <-> Dict.get_default tier_levels required 0
          <= Dict.get_default tier_levels (user_subscription_tier db u) 0).
Proof.
  unfold exec, verify_subscription_tier, bind, read, ret, raise,
    is_tier_or_higher.
  destruct (Z.leb_spec (Dict.get_default tier_levels required 0)
              (Dict.get_default tier_levels (user_subscription_tier db u) 0))
    as [Hle|Hgt]; cbn [negb snd].
  - split; [reflexivity|]. split; auto.
  - split; [reflexivity|]. split; [discriminate | lia].
Qed.

(** X11: a required tier that the rank table does not know counts as level
    0, so [verify_subscription_tier] lets every user through, with or
    without a subscription. *)
Theorem verify_subscription_tier_unknown_requirement (required : string)
    (u : User) (db : DB) :
  Dict.contains tier_levels required = false ->
  verify_subscription_tier required u db = (Return u, db).
Proof.
  intros Hun.
  apply verify_subscription_tier_decides.
  assert (E : Dict.get_default tier_levels required 0 = 0).
  { unfold Dict.contains, Dict.get_default in *.
    now destruct (Dict.get tier_levels required). }
  rewrite E. apply tier_level_bounds.
Qed.

Lemma verify_subscription_tier_unknown_requirement_witness :
  Dict.contains tier_levels "Premium" = false
  /\ verify_subscription_tier "Premium" bob db_two_users
     = (Return bob, db_two_users).
Proof.
  split; [reflexivity|].
  apply (verify_subscription_tier_unknown_requirement "Premium" bob
           db_two_users).
  reflexivity.
Defined.

(** X12: the gate is monotone in the requirement: a user who passes
    [verify_subscription_tier] for one tier passes it for every tier of
    the same or a lower level, and everybody passes it for "free". *)
Theorem verify_subscription_tier_monotone (lower higher : string) (u : User)
    (db : DB) :
  Dict.get_default tier_levels lower 0
  <= Dict.get_default tier_levels higher 0 ->
  verify_subscription_tier higher u db = (Return u, db) ->
  verify_subscription_tier lower u db = (Return u, db)
  /\ verify_subscription_tier "free" u db = (Return u, db).
Proof.
  intros Hle Hpass.
  apply verify_subscription_tier_decides in Hpass.
  split; apply verify_subscription_tier_decides.
  - lia.
  - change (Dict.get_default tier_levels "free" 0) with 0.
    apply tier_level_bounds.
Qed.

Lemma verify_subscription_tier_monotone_witness :
  Dict.get_default tier_levels "premium" 0
  <= Dict.get_default tier_levels "pro" 0
  /\ verify_subscription_tier "pro" alice db_past_due_pro
     = (Return alice, db_past_due_pro)
  /\ verify_subscription_tier "premium" alice db_past_due_pro
     = (Return alice, db_past_due_pro)
  /\ verify_subscription_tier "free" alice db_past_due_pro
     = (Return alice, db_past_due_pro).
Proof.
  split; [cbn; lia|]. split; [reflexivity|].
  apply (verify_subscription_tier_monotone "premium" "pro" alice
           db_past_due_pro); [cbn; lia | reflexivity].
Defined.

(** X13: the two ways of the models to ask "premium or better" agree for
    every stored tier, known or not: [UserSubscription.is_premium] is
    [User.is_tier_or_higher("premium")] and [is_pro] is
    [is_tier_or_higher("pro")]. *)
Theorem is_premium_agrees_with_rank (db : DB) (u : User)
    (s : UserSubscription) :
  user_subscription db u = Some s ->
  is_tier_or_higher db u "premium" = is_premium s
  /\ is_tier_or_higher db u "pro" = is_pro s.
Proof.
  intros Hs.
  unfold is_tier_or_higher, user_subscription_tier, is_premium, is_pro,
    str_in, Dict.get_default, tier_levels.
  rewrite Hs. cbn [Dict.get existsb].
  rewrite (String.eqb_sym (subscription_tier s) "premium").
  rewrite (String.eqb_sym (subscription_tier s) "pro").
  destruct (String.eqb_spec "free" (subscription_tier s)) as [E|_].
  - rewrite <- E. split; reflexivity.
  - destruct (String.eqb_spec "premium" (subscription_tier s)) as [E|_].
    + rewrite <- E. split; reflexivity.
    + destruct (String.eqb "pro" (subscription_tier s)); split; reflexivity.
Qed.

Lemma is_premium_agrees_with_rank_witness :
  user_subscription db_enterprise alice
  = Some (alice_subscription "enterprise" "active")
  /\ is_tier_or_higher db_enterprise alice "premium"
     = is_premium (alice_subscription "enterprise" "active")
  /\ is_tier_or_higher db_enterprise alice "pro"
     = is_pro (alice_subscription "enterprise" "active").
Proof.
  split; [reflexivity|].
  apply (is_premium_agrees_with_rank db_enterprise alice
           (alice_subscription "enterprise" "active")).
  reflexivity.
Defined.

(** ** The subscription table as a map from users to rows *)

Lemma find_other_modify_first (uid other : UUID)
    (f : UserSubscription -> UserSubscription)
    (rows : list UserSubscription) :
  (forall s, user_id (f s) = user_id s) ->
  other <> uid ->
  find (fun s => N.eqb (user_id s) other) (modify_first uid f rows)
  = find (fun s => N.eqb (user_id s) other) rows.
Proof.
  intros Hid Hneq.
  induction rows as [|s rest IH]; simpl; [reflexivity|].
  destruct (N.eqb_spec (user_id s) uid) as [E|_]; simpl.
  - rewrite Hid.
    destruct (N.eqb_spec (user_id s) other) as [E'|_]; [congruence|].
    reflexivity.
  - destruct (N.eqb (user_id s) other); [reflexivity | exact IH].
Qed.

Lemma find_subscription_append (other : UUID) (s : UserSubscription)
    (rows : list UserSubscription) :
  find (fun x => N.eqb (user_id x) other) (rows ++ [s])
  = match find (fun x => N.eqb (user_id x) other) rows with
    | Some x => Some x
    | None => if N.eqb (user_id s) other then Some s else None
    end.
Proof.
  induction rows as [|x rest IH]; simpl; [reflexivity|].
  destruct (N.eqb (user_id x) other); [reflexivity | exact IH].
Qed.

(** X14: [create_subscription].  For a user who has a row it raises 400
    and writes nothing.  For a user without one it returns the new row, a
    later lookup of the user finds exactly that row, the rows of other
    users and the usage table are as before, one "subscription_created"
    event without previous tier is appended, and the user resolves to the
    new tier when the row is active and to "free" otherwise. *)
Theorem create_subscription_spec (data : UserSubscription) (db : DB) :
  match get_user_subscription db (user_id data) with
  | Some _ =>
      create_subscription data db
      = (Raise (mkHTTPException 400 "User already has a subscription" []),
         db)
  | None =>
      exists db',
        create_subscription data db = (Return data, db')
        /\ get_user_subscription db' (user_id data) = Some data
        /\ (forall other, other <> user_id data ->
              get_user_subscription db' other
              = get_user_subscription db other)
        /\ feature_usage db' = feature_usage db
        /\ subscription_events db'
           = subscription_events db
             ++ [mkSubscriptionEvent (user_id data) "subscription_created"
                   None (Some (subscription_tier data))]
        /\ get_user_tier db' (user_id data)
           = (if is_active data then subscription_tier data else "free")
  end.
Proof.
  unfold create_subscription, bind, read, write, ret, raise,
    _record_subscription_event.
  destruct (get_user_subscription db (user_id data)) eqn:Hg;
    [reflexivity|].
  unfold bind, write, ret. eexists. split; [reflexivity|].
  unfold get_user_tier, get_user_subscription in *.
  cbn [user_subscriptions feature_usage subscription_events
       set_user_subscriptions].
  assert (Hnew : find (fun s => N.eqb (user_id s) (user_id data))
                   (user_subscriptions db ++ [data]) = Some data)
    by now rewrite find_subscription_append, Hg, N.eqb_refl.
  rewrite Hnew. repeat split.
  - intros other Hneq. rewrite find_subscription_append.
    destruct (find (fun x => N.eqb (user_id x) other) (user_subscriptions db));
      [reflexivity|].
    destruct (N.eqb_spec (user_id data) other); [congruence | reflexivity].
  - now destruct (is_active data).
Qed.

(** The tier change that [update_subscription] logs. *)
Lemma update_subscription_run (uid : UUID) (u : SubscriptionUpdate)
    (s : UserSubscription) (db : DB) :
  get_user_subscription db uid = Some s ->
  update_subscription uid u db
  = (Return (apply_update u s),
     mkDB (modify_first uid (apply_update u) (user_subscriptions db))
       (feature_usage db)
       (subscription_events db
        ++ match upd_subscription_tier u with
           | Some tier =>
               if truthy tier && negb (String.eqb (subscription_tier s) tier)
               then [mkSubscriptionEvent uid "subscription_changed"
                       (Some (subscription_tier s)) (Some tier)]
               else []
           | None => []
           end)).
Proof.
  intros Hs.
  unfold update_subscription, bind, read, write, ret,
    _record_subscription_event.
  rewrite Hs.
  destruct (upd_subscription_tier u) as [tier|].
  - destruct (truthy tier && negb (String.eqb (subscription_tier s) tier)).
    + reflexivity.
    + unfold set_user_subscriptions. cbn [user_subscriptions feature_usage
        subscription_events]. now rewrite app_nil_r.
  - unfold set_user_subscriptions. cbn [user_subscriptions feature_usage
      subscription_events]. now rewrite app_nil_r.
Qed.

(** X15: [update_subscription].  Without a row it raises 404 and writes
    nothing.  With one, it returns the row with the set fields replaced, a
    later lookup finds that row, other users' rows and the usage table are
    as before, and the event log grows by one "subscription_changed" event
    exactly when a non-empty tier different from the stored one was given,
    and by nothing otherwise. *)
Theorem update_subscription_spec (uid : UUID) (u : SubscriptionUpdate)
    (db : DB) :
  match get_user_subscription db uid with
  | None => update_subscription uid u db = (Raise not_found, db)
  | Some s =>
      exists db',
        update_subscription uid u db = (Return (apply_update u s), db')
        /\ get_user_subscription db' uid = Some (apply_update u s)
        /\ (forall other, other <> uid ->
              get_user_subscription db' other
              = get_user_subscription db other)
        /\ feature_usage db' = feature_usage db
        /\ subscription_events db'
           = subscription_events db
             ++ match upd_subscription_tier u with
                | Some tier =>
                    if truthy tier
                       && negb (String.eqb (subscription_tier s) tier)
                    then [mkSubscriptionEvent uid "subscription_changed"
                            (Some (subscription_tier s)) (Some tier)]
                    else []
                | None => []
                end
  end.
Proof.
  destruct (get_user_subscription db uid) as [s|] eqn:Hs.
  - rewrite (update_subscription_run uid u s db Hs).
    eexists. split; [reflexivity|].
    unfold get_user_subscription in *.
    cbn [user_subscriptions feature_usage subscription_events].
    repeat split.
    + rewrite find_modify_first by reflexivity. now rewrite Hs.
    + intros other Hneq.
      now apply find_other_modify_first.
  - unfold update_subscription, bind, read, raise. now rewrite Hs.
Qed.

(** What [cancel_subscription] writes. *)
Lemma cancel_subscription_run (uid : UUID) (immediate : bool)
    (s : UserSubscription) (db : DB) :
  get_user_subscription db uid = Some s ->
  cancel_subscription uid immediate db
  = (Return (if immediate then cancel_now s else cancel_later s),
     mkDB (modify_first uid (if immediate then cancel_now else cancel_later)
             (user_subscriptions db))
       (feature_usage db)
       (subscription_events db
        ++ [if immediate
            then mkSubscriptionEvent uid "subscription_canceled_immediate"
                   (Some "free") (Some "free")
            else mkSubscriptionEvent uid "subscription_canceled_period_end"
                   (Some (subscription_tier s))
                   (Some (subscription_tier s))])).
Proof.
  intros Hs.
  unfold cancel_subscription, bind, read, write, ret,
    _record_subscription_event.
  rewrite Hs. now destruct immediate.
Qed.

(** X16: [cancel_subscription].  Without a row it raises 404 and writes
    nothing.  With one, an immediate cancellation stores tier "free" and
    status "canceled" and the user resolves to "free"; a cancellation at
    period end only sets the flag, so the user resolves to the same tier as
    before; either way other users' rows and the usage table are as before
    and exactly one event is appended. *)
Theorem cancel_subscription_spec (uid : UUID) (immediate : bool) (db : DB) :
  match get_user_subscription db uid with
  | None => cancel_subscription uid immediate db = (Raise not_found, db)
  | Some s =>
      exists db' event,
        cancel_subscription uid immediate db
        = (Return (if immediate then cancel_now s else cancel_later s), db')
        /\ get_user_subscription db' uid
           = Some (if immediate then cancel_now s else cancel_later s)
        /\ (forall other, other <> uid ->
              get_user_subscription db' other
              = get_user_subscription db other)
        /\ feature_usage db' = feature_usage db
        /\ subscription_events db' = subscription_events db ++ [event]
        /\ get_user_tier db' uid
           = (if immediate then "free" else get_user_tier db uid)
        /\ (forall feature,
              check_feature_access db' uid feature
              = if immediate
                then str_in feature (available_features "free")
                else check_feature_access db uid feature)
  end.
Proof.
  destruct (get_user_subscription db uid) as [s|] eqn:Hs.
  - rewrite (cancel_subscription_run uid immediate s db Hs).
    assert (Hid : forall x,
               user_id ((if immediate then cancel_now else cancel_later) x)
               = user_id x) by (destruct immediate; reflexivity).
    assert (Hrow : find (fun x => N.eqb (user_id x) uid)
                     (modify_first uid
                        (if immediate then cancel_now else cancel_later)
                        (user_subscriptions db))
                   = Some (if immediate then cancel_now s else cancel_later s)).
    { rewrite (find_modify_first _ _ _ Hid).
      unfold get_user_subscription in Hs. rewrite Hs.
      now destruct immediate. }
    assert (Htier : forall events,
               get_user_tier
                 (mkDB (modify_first uid
                          (if immediate then cancel_now else cancel_later)
                          (user_subscriptions db))
                    (feature_usage db) events) uid
               = (if immediate then "free" else get_user_tier db uid)).
    { intros events. unfold get_user_tier, get_user_subscription in *.
      cbn [user_subscriptions]. rewrite Hrow, Hs.
      now destruct immediate. }
    do 2 eexists. split; [reflexivity|].
    unfold get_user_subscription.
    cbn [user_subscriptions feature_usage subscription_events].
    split; [exact Hrow|]. split.
    { intros other Hneq. now apply find_other_modify_first. }
    split; [reflexivity|]. split; [reflexivity|].
    split; [apply Htier|].
    intros feature. unfold check_feature_access. rewrite Htier.
    now destruct immediate.
  - unfold cancel_subscription, bind, read, raise. now rewrite Hs.
Qed.

(** X17: changing the tier does not reactivate a cancelled subscription.
    After an immediate cancellation, an [update_subscription] that leaves
    the status unset stores the tier it is given, and the user still
    resolves to "free". *)
Theorem tier_change_after_cancel_keeps_free (uid : UUID)
    (u : SubscriptionUpdate) (s : UserSubscription) (db : DB) :
  get_user_subscription db uid = Some s ->
  upd_status u = None ->
  let db' := exec (update_subscription uid u)
               (exec (cancel_subscription uid true) db) in
  option_map subscription_tier (get_user_subscription db' uid)
  = Some (or_keep (upd_subscription_tier u) "free")
  /\ get_user_tier db' uid = "free".
Proof.
  intros Hs Hstatus db'.
  assert (Hrow : get_user_subscription db' uid
                 = Some (apply_update u (cancel_now s))).
  { unfold db', exec.
    rewrite (cancel_subscription_run uid true s db Hs). cbn [snd].
    set (db1 := mkDB _ _ _).
    assert (H1 : get_user_subscription db1 uid = Some (cancel_now s)).
    { unfold get_user_subscription, db1. cbn [user_subscriptions].
      rewrite find_modify_first by reflexivity.
      unfold get_user_subscription in Hs. now rewrite Hs. }
    rewrite (update_subscription_run uid u (cancel_now s) db1 H1).
    cbn [snd]. unfold get_user_subscription in *.
    cbn [user_subscriptions].
    rewrite find_modify_first by reflexivity. now rewrite H1. }
  unfold get_user_tier. rewrite Hrow. cbn [option_map].
  unfold apply_update, is_active, cancel_now.
  cbn [subscription_tier status]. rewrite Hstatus. cbn [or_keep].
  split; reflexivity.
Qed.

Lemma tier_change_after_cancel_keeps_free_witness :
  get_user_subscription db_premium 1%N
  = Some (alice_subscription "premium" "active")
  /\ upd_status (mkSubscriptionUpdate (Some "pro") None None None None None
                   None) = None
  /\ let db' :=
       exec (update_subscription 1%N
               (mkSubscriptionUpdate (Some "pro") None None None None None
                  None))
         (exec (cancel_subscription 1%N true) db_premium) in
     option_map subscription_tier (get_user_subscription db' 1%N)
     = Some (or_keep
               (upd_subscription_tier
                  (mkSubscriptionUpdate (Some "pro") None None None None
                     None None)) "free")
     /\ get_user_tier db' 1%N = "free".
Proof.
  split; [reflexivity|]. split; [reflexivity|].
  apply (tier_change_after_cancel_keeps_free 1%N
           (mkSubscriptionUpdate (Some "pro") None None None None None None)
           (alice_subscription "premium" "active") db_premium);
    reflexivity.
Defined.

(** ** Dictionaries built by assignment *)

Lemma dict_get_set {V} (d : Dict.t V) (k k' : string) (v : V) :
  Dict.get (dict_set d k v) k'
  = if String.eqb k k' then Some v else Dict.get d k'.
Proof.
  induction d as [|[k0 v0] rest IH]; cbn [dict_set Dict.get].
  - reflexivity.
  - destruct (String.eqb_spec k0 k) as [->|Hneq]; cbn [Dict.get].
    + now destruct (String.eqb k k').
    + destruct (String.eqb_spec k0 k') as [->|_].
      * destruct (String.eqb_spec k k'); [congruence | reflexivity].
      * exact IH.
Qed.

Lemma find_snoc {A} (p : A -> bool) (l : list A) (a : A) :
  find p (l ++ [a])
  = match find p l with
    | Some x => Some x
    | None => if p a then Some a else None
    end.
Proof.
  induction l as [|x rest IH]; simpl; [reflexivity|].
  destruct (p x); [reflexivity | exact IH].
Qed.

(** A dict filled by a loop of assignments holds, for each key, the value
    of the last element that wrote it. *)
Lemma dict_get_fold_set {A V} (kf : A -> string) (vf : A -> V)
    (l : list A) (d0 : Dict.t V) (k : string) :
  Dict.get (fold_left (fun d x => dict_set d (kf x) (vf x)) l d0) k
  = match find (fun x => String.eqb (kf x) k) (rev l) with
    | Some x => Some (vf x)
    | None => Dict.get d0 k
    end.
Proof.
  revert d0. induction l as [|a rest IH]; intros d0; cbn [fold_left rev].
  - reflexivity.
  - rewrite IH, find_snoc, dict_get_set.
    destruct (find _ (rev rest)); [reflexivity|].
    now destruct (String.eqb (kf a) k).
Qed.

(** With unique keys the last element that matches is the first. *)
Lemma find_rev_unique {A K} (key : A -> K) (p : A -> bool) (k : K)
    (l : list A) :
  NoDup (map key l) ->
  (forall x, p x = true -> key x = k) ->
  find p (rev l) = find p l.
Proof.
  intros Hnd Hp.
  induction l as [|a rest IH]; [reflexivity|].
  cbn [rev map find] in *. inversion Hnd as [|? ? Hnotin Hnd']; subst.
  rewrite find_snoc, (IH Hnd').
  destruct (p a) eqn:Hpa.
  - destruct (find p rest) as [x|] eqn:Hf; [|reflexivity].
    apply find_some in Hf. destruct Hf as [Hin Hpx].
    exfalso. apply Hnotin.
    rewrite (Hp a Hpa), <- (Hp x Hpx). now apply in_map.
  - now destruct (find p rest).
Qed.

Lemma find_filter {A} (p q : A -> bool) (l : list A) :
  find p (filter q l) = find (fun x => q x && p x) l.
Proof.
  induction l as [|a rest IH]; simpl; [reflexivity|].
  destruct (q a); simpl; [|exact IH].
  destruct (p a); [reflexivity | exact IH].
Qed.

Lemma find_ext {A} (p q : A -> bool) (l : list A) :
  (forall x, p x = q x) -> find p l = find q l.
Proof.
  intros H. induction l as [|a rest IH]; simpl; [reflexivity|].
  now rewrite H, IH.
Qed.

Lemma dict_get_find {V} (d : Dict.t V) (k : string) :
  Dict.get d k = option_map snd (find (fun e => String.eqb (fst e) k) d).
Proof.
  induction d as [|[k0 v0] rest IH]; simpl; [reflexivity|].
  destruct (String.eqb k0 k); [reflexivity | exact IH].
Qed.

(** ** The usage summary *)

Lemma tier_limits_nodup (tier : string) :
  NoDup (map fst (Dict.get_default TIER_LIMITS tier [])).
Proof.
  unfold Dict.get_default, TIER_LIMITS. cbn [Dict.get].
  destruct (String.eqb "free" tier);
    [cbn; repeat constructor; cbn; intuition discriminate|].
  destruct (String.eqb "premium" tier);
    [cbn; repeat constructor; cbn; intuition discriminate|].
  destruct (String.eqb "pro" tier);
    [cbn; repeat constructor; cbn; intuition discriminate|].
  constructor.
Qed.

(** Among today's rows of one user a feature occurs once. *)
Lemma todays_features_unique (clk : Clock) (db : DB) (uid : UUID) :
  usage_keys_unique db ->
  NoDup (map feature_name (todays_usages clk db uid)).
Proof.
  unfold usage_keys_unique, todays_usages.
  induction (feature_usage db) as [|a rows IH]; cbn [map filter];
    intros Hnd; [constructor|].
  inversion Hnd as [|? ? Hnotin Hnd']; subst.
  destruct (N.eqb (fu_user_id a) uid && Z.eqb (usage_date a) (today clk))
    eqn:Hq; [|now apply IH].
  cbn [map]. constructor; [|now apply IH].
  intros Hin. apply in_map_iff in Hin. destruct Hin as (x & Hname & Hx).
  apply filter_In in Hx. destruct Hx as [Hx Hqx].
  apply Hnotin. apply in_map_iff. exists x. split; [|exact Hx].
  apply andb_true_iff in Hq, Hqx.
  destruct Hq as [Hu Hd], Hqx as [Hux Hdx].
  apply N.eqb_eq in Hu, Hux. apply Z.eqb_eq in Hd, Hdx.
  unfold key_of. congruence.
Qed.

(** Under the unique index the dict of today's usage reads as the
    counter. *)
Lemma usage_dict_counter (clk : Clock) (db : DB) (uid : UUID)
    (feature : string) :
  usage_keys_unique db ->
  Dict.get_default (usage_dict (todays_usages clk db uid)) feature 0
  = counter clk db uid feature.
Proof.
  intros Hu.
  unfold Dict.get_default, usage_dict.
  rewrite (dict_get_fold_set feature_name usage_count).
  rewrite (find_rev_unique feature_name _ feature)
    by (try (now apply todays_features_unique);
        intros x Hx; now apply String.eqb_eq in Hx).
  unfold todays_usages. rewrite find_filter.
  unfold counter, used_today, query_usage.
  rewrite (find_ext _ (usage_key uid feature (today clk))).
  - now destruct (find _ (feature_usage db)).
  - intros x. unfold usage_key.
    destruct (N.eqb (fu_user_id x) uid), (Z.eqb (usage_date x) (today clk)),
      (String.eqb (feature_name x) feature); reflexivity.
Qed.

(** The entries of the summary are those of the limit table of the
    resolved tier. *)
Lemma summary_entry (clk : Clock) (db : DB) (uid : UUID) (feature : string) :
  Dict.get (get_feature_usage_summary clk db uid) feature
  = option_map
      (fun limit =>
         let used :=
           Dict.get_default (usage_dict (todays_usages clk db uid))
             feature 0 in
         mkFeatureUsageSummary feature used limit (Z.max 0 (limit - used))
           (Some (reset_time_text clk)))
      (tier_limit (get_user_tier db uid) feature).
Proof.
  unfold get_feature_usage_summary, tier_limit. cbv zeta.
  set (limits := Dict.get_default TIER_LIMITS (get_user_tier db uid) []).
  set (usages := usage_dict (todays_usages clk db uid)).
  rewrite (dict_get_fold_set fst
             (fun entry =>
                mkFeatureUsageSummary (fst entry)
                  (Dict.get_default usages (fst entry) 0) (snd entry)
                  (Z.max 0 (snd entry - Dict.get_default usages (fst entry) 0))
                  (Some (reset_time_text clk)))).
  rewrite (find_rev_unique fst _ feature)
    by (try apply tier_limits_nodup;
        intros x Hx; now apply String.eqb_eq in Hx).
  rewrite (dict_get_find limits feature).
  destruct (find _ limits) as [e|] eqn:Hf; cbn [option_map Dict.get];
    [|reflexivity].
  apply find_some in Hf. destruct Hf as [_ He].
  apply String.eqb_eq in He. now rewrite He.
Qed.

(** X18: [get_feature_usage_summary] has an entry exactly for the features
    that have a limit at the user's resolved tier; under the unique index
    the entry shows today's counter, the limit, and the remaining that
    [check_usage_limit] reports. *)
Theorem usage_summary_matches_checks (clk : Clock) (db : DB) (uid : UUID)
    (feature : string) :
  usage_keys_unique db ->
  Dict.get (get_feature_usage_summary clk db uid) feature
  = option_map
      (fun limit =>
         mkFeatureUsageSummary feature (counter clk db uid feature) limit
           (snd (check_usage_limit clk db uid feature))
           (Some (reset_time_text clk)))
      (tier_limit (get_user_tier db uid) feature).
Proof.
  intros Hu. rewrite summary_entry, (usage_dict_counter clk db uid feature Hu).
  unfold check_usage_limit, tier_limit, counter.
  destruct (Dict.get _ feature); reflexivity.
Qed.

Lemma usage_summary_matches_checks_witness :
  usage_keys_unique db_two_users
  /\ Dict.get (get_feature_usage_summary clock0 db_two_users 1%N)
       "ask_questions"
     = option_map
         (fun limit =>
            mkFeatureUsageSummary "ask_questions"
              (counter clock0 db_two_users 1%N "ask_questions") limit
              (snd (check_usage_limit clock0 db_two_users 1%N
                      "ask_questions"))
              (Some (reset_time_text clock0)))
         (tier_limit (get_user_tier db_two_users 1%N) "ask_questions").
Proof.
  assert (H : usage_keys_unique db_two_users).
  { unfold usage_keys_unique, db_two_users. cbn.
    repeat constructor; cbn; intuition discriminate. }
  split; [exact H|].
  apply (usage_summary_matches_checks clock0 db_two_users 1%N
           "ask_questions").
  exact H.
Defined.

(** X19: [get_subscription_summary] copies tier, status, active flag,
    period end and cancellation flag from the stored row, whatever the
    status is, and reports "free", "none", inactive when there is no row.
    The usage it lists is that of [get_feature_usage_summary], whose
    limits are those of the tier the user resolves to: the shown tier when
    the summary is active, "free" when it is not.  So for a row that is not
    active the summary shows the stored tier next to free-tier limits. *)
Theorem subscription_summary_limits (clk : Clock) (db : DB) (uid : UUID) :
  let summary := get_subscription_summary clk db uid in
  match get_user_subscription db uid with
  | Some s =>
      ss_tier summary = subscription_tier s
      /\ ss_status summary = status s
      /\ ss_is_active summary = is_active s
      /\ ss_current_period_end summary = current_period_end s
      /\ ss_cancel_at_period_end summary = cancel_at_period_end s
  | None =>
      ss_tier summary = "free"
      /\ ss_status summary = "none"
      /\ ss_is_active summary = false
      /\ ss_current_period_end summary = None
      /\ ss_cancel_at_period_end summary = false
  end
  /\ ss_feature_usage summary = get_feature_usage_summary clk db uid
  /\ (forall feature,
        option_map fus_daily_limit
          (Dict.get (ss_feature_usage summary) feature)
        = tier_limit
            (if ss_is_active summary then ss_tier summary else "free")
            feature).
Proof.
  cbv zeta. unfold get_subscription_summary.
  cbn [ss_feature_usage ss_is_active ss_tier ss_status
       ss_current_period_end ss_cancel_at_period_end].
  split; [|split].
  - destruct (get_user_subscription db uid); repeat split.
  - reflexivity.
  - intros feature. rewrite summary_entry.
    unfold get_user_tier.
    destruct (get_user_subscription db uid) as [s|].
    + destruct (is_active s); cbn [negb];
        now destruct (tier_limit _ feature).
    + now destruct (tier_limit _ feature).
Qed.

(** ** The read-only routes *)

Lemma str_in_filter_not (f : string) (have candidates : list string) :
  str_in f (filter (fun x => negb (str_in x have)) candidates)
  = str_in f candidates && negb (str_in f have).
Proof.
  apply eq_true_iff_eq.
  rewrite andb_true_iff, negb_true_iff, !str_in_In, filter_In,
    negb_true_iff.
  reflexivity.
Qed.

(** X20: the route [GET /features] never raises and never writes.  The
    features it lists as available are the ones [check_feature_access]
    grants.  The next tier it offers is "premium" to a user who resolves to
    "free", "pro" to one who resolves to "premium", and none to anyone
    else.  The features it lists for the next tier are never among the
    available ones, together with them they are exactly what the next tier
    reaches, and without a next tier the list is empty. *)
Theorem available_features_route (u : User) (db : DB) :
  exists answer,
    route_get_available_features u db = (Return answer, db)
    /\ af_current_tier answer = get_user_tier db (id u)
    /\ (forall f, str_in f (af_available_features answer)
                  = check_feature_access db (id u) f)
    /\ af_next_tier answer
       = (if String.eqb (get_user_tier db (id u)) "free"
          then Some "premium"
          else if String.eqb (get_user_tier db (id u)) "premium"
               then Some "pro"
               else None)
    /\ (forall f, str_in f (af_next_tier_features answer) = true ->
                  str_in f (af_available_features answer) = false)
    /\ match af_next_tier answer with
       | Some next =>
           forall f,
             str_in f (available_features next)
             = str_in f (af_available_features answer)
               || str_in f (af_next_tier_features answer)
       | None => af_next_tier_features answer = []
       end.
Proof.
  unfold route_get_available_features, bind, read, ret. cbv beta iota zeta.
  eexists. split; [reflexivity|].
  cbn [af_current_tier af_available_features af_next_tier
       af_next_tier_features].
  split; [reflexivity|]. split; [reflexivity|]. split; [|split].
  - destruct (String.eqb (get_user_tier db (id u)) "free");
      [reflexivity|].
    now destruct (String.eqb (get_user_tier db (id u)) "premium").
  - intros f. rewrite str_in_filter_not, andb_true_iff, negb_true_iff.
    now intros [_ H].
  - fold (available_features (get_user_tier db (id u))).
    destruct (String.eqb_spec (get_user_tier db (id u)) "free") as [E|Hf].
    + cbn [fst snd]. intros f. rewrite E, str_in_filter_not.
      rewrite available_features_premium, str_in_app.
      change (available_features "free") with (tier_features "free").
      change (Dict.get_default TIER_FEATURES "premium" [])
        with (tier_features "premium").
      now destruct (str_in f (tier_features "free")),
        (str_in f (tier_features "premium")).
    + destruct (String.eqb_spec (get_user_tier db (id u)) "premium")
        as [E|Hp]; cbn [fst snd].
      * intros f. rewrite E, str_in_filter_not.
        rewrite available_features_pro, available_features_premium.
        rewrite !str_in_app.
        change (Dict.get_default TIER_FEATURES "pro" [])
          with (tier_features "pro").
        now destruct (str_in f (tier_features "free")),
          (str_in f (tier_features "premium")),
          (str_in f (tier_features "pro")).
      * reflexivity.
Qed.

(** X21: the route [GET /usage-limits/{feature_name}] never raises and
    never writes.  It answers "no limit" exactly for a feature without a
    limit at the user's resolved tier; otherwise it reports the configured
    limit, what remains of it today, and "allowed" exactly when today's
    counter is below the limit. *)
Theorem usage_limit_route (clk : Clock) (feature : string) (u : User)
    (db : DB) :
  route_check_usage_limit clk feature u db
  = (Return
       (match tier_limit (get_user_tier db (id u)) feature with
        | None =>
            NoUsageLimit feature (get_user_tier db (id u))
              "This feature does not have usage limits for your subscription tier"
        | Some limit =>
            UsageLimit feature
              (counter clk db (id u) feature <? limit)
              (Z.max 0 (limit - counter clk db (id u) feature))
              (get_user_tier db (id u)) limit (Some (today clk + 1))
        end),
     db).
Proof.
  unfold tier_limit.
  destruct (Dict.get (Dict.get_default TIER_LIMITS
                        (get_user_tier db (id u)) []) feature)
    as [limit|] eqn:Hl.
  - assert (Hc : exists metadata,
               check_rate_limit clk db (id u) feature
               = (counter clk db (id u) feature <? limit,
                  Z.max 0 (limit - counter clk db (id u) feature), metadata)
               /\ md_reset_time metadata = Some (today clk + 1)).
    { unfold check_rate_limit, check_usage_limit, counter. rewrite Hl.
      replace (0 <? Z.max 0
                      (limit - used_today db (id u) feature (today clk)))
        with (used_today db (id u) feature (today clk) <? limit) by lia.
      eexists. split; reflexivity. }
    destruct Hc as (metadata & Hc & Hreset).
    unfold route_check_usage_limit, bind, read, ret, Dict.contains.
    cbv beta iota. rewrite Hl. cbn [negb]. rewrite Hc, Hreset.
    unfold Dict.get_default at 1. now rewrite Hl.
  - unfold route_check_usage_limit, bind, read, ret, Dict.contains.
    cbv beta iota. now rewrite Hl.
Qed.

(** ** Headers after tracking *)



(** ** Upgrades *)

Lemma available_features_monotone (t1 t2 : string) (r1 r2 : Z) :
  Dict.get tier_levels t1 = Some r1 ->
  Dict.get tier_levels t2 = Some r2 ->
  r1 <= r2 ->
  forall f, str_in f (available_features t1) = true ->
            str_in f (available_features t2) = true.
Proof.
  intros H1 H2 Hr.
  apply tier_levels_inv in H1, H2.
  destruct H1 as [[-> ->]|[[-> ->]|[-> ->]]];
    destruct H2 as [[-> ->]|[[-> ->]|[-> ->]]]; try lia;
    apply features_subset_sound; vm_compute; reflexivity.
Qed.

Lemma dict_contains_keys {V} (d : Dict.t V) (k : string) :
  Dict.contains d k = str_in k (map fst d).
Proof.
  unfold Dict.contains, str_in.
  induction d as [|[k0 v0] rest IH]; cbn [Dict.get map existsb fst];
    [reflexivity|].
  rewrite (String.eqb_sym k k0).
  destruct (String.eqb k0 k); [reflexivity | exact IH].
Qed.

(** The three tiers limit the same features, and a higher tier limits
    them no lower. *)
Lemma tier_limit_monotone (t1 t2 : string) (r1 r2 : Z) (f : string) :
  Dict.get tier_levels t1 = Some r1 ->
  Dict.get tier_levels t2 = Some r2 ->
  r1 <= r2 ->
  match tier_limit t1 f, tier_limit t2 f with
  | Some l1, Some l2 => l1 <= l2
  | None, None => True
  | _, _ => False
  end.
Proof.
  intros H1 H2 Hr.
  assert (Hkeys : Dict.contains (Dict.get_default TIER_LIMITS t1 []) f
                  = Dict.contains (Dict.get_default TIER_LIMITS t2 []) f).
  { rewrite !dict_contains_keys.
    apply tier_levels_inv in H1, H2.
    destruct H1 as [[-> _]|[[-> _]|[-> _]]];
      destruct H2 as [[-> _]|[[-> _]|[-> _]]]; reflexivity. }
  assert (Hle : forall l1 l2, tier_limit t1 f = Some l1 ->
                              tier_limit t2 f = Some l2 -> l1 <= l2).
  { apply tier_levels_inv in H1, H2.
    destruct H1 as [[-> ->]|[[-> ->]|[-> ->]]];
      destruct H2 as [[-> ->]|[[-> ->]|[-> ->]]]; try lia;
      apply limits_le_sound; vm_compute; reflexivity. }
  unfold Dict.contains in Hkeys. unfold tier_limit in *.
  destruct (Dict.get (Dict.get_default TIER_LIMITS t1 []) f),
    (Dict.get (Dict.get_default TIER_LIMITS t2 []) f);
    try discriminate Hkeys; auto.
Qed.

(** X24: an upgrade never takes anything away.  When an active
    subscription of a catalog tier is updated to a catalog tier of the
    same or a higher level (status left unset), the user resolves to the
    new tier, keeps every feature reachable before, and has at least as
    much remaining of every feature as before. *)
Theorem upgrade_never_takes_away (clk : Clock) (uid : UUID)
    (u : SubscriptionUpdate) (s : UserSubscription) (tier : string)
    (r1 r2 : Z) (db : DB) :
  get_user_subscription db uid = Some s ->
  is_active s = true ->
  upd_subscription_tier u = Some tier ->
  upd_status u = None ->
  Dict.get tier_levels (subscription_tier s) = Some r1 ->
  Dict.get tier_levels tier = Some r2 ->
  r1 <= r2 ->
  get_user_tier (exec (update_subscription uid u) db) uid = tier
  /\ (forall f,
        check_feature_access db uid f = true ->
        check_feature_access (exec (update_subscription uid u) db) uid f
        = true)
  /\ (forall f,
        snd (check_usage_limit clk db uid f)
        <= snd (check_usage_limit clk (exec (update_subscription uid u) db)
                  uid f)).
Proof.
  intros Hs Hact Htier Hstatus Hr1 Hr2 Hle.
  assert (Hbefore : get_user_tier db uid = subscription_tier s).
  { unfold get_user_tier. now rewrite Hs, Hact. }
  unfold exec. rewrite (update_subscription_run uid u s db Hs). cbn [snd].
  set (db' := mkDB _ _ _).
  assert (Hafter : get_user_tier db' uid = tier).
  { unfold get_user_tier, get_user_subscription, db'.
    cbn [user_subscriptions].
    rewrite find_modify_first by reflexivity.
    unfold get_user_subscription in Hs. rewrite Hs. cbn [option_map].
    unfold is_active, apply_update in *. cbn [status subscription_tier].
    rewrite Hstatus, Htier. cbn [or_keep]. now rewrite Hact. }
  split; [exact Hafter|]. split.
  - intros f. unfold check_feature_access. rewrite Hbefore, Hafter.
    now apply (available_features_monotone _ _ r1 r2).
  - intros f. unfold check_usage_limit. rewrite Hbefore, Hafter.
    pose proof (tier_limit_monotone (subscription_tier s) tier r1 r2 f
                  Hr1 Hr2 Hle) as Hm.
    unfold tier_limit in Hm.
    assert (Hused : used_today db' uid f (today clk)
                    = used_today db uid f (today clk)) by reflexivity.
    rewrite Hused.
    destruct (Dict.get (Dict.get_default TIER_LIMITS (subscription_tier s) [])
                f),
      (Dict.get (Dict.get_default TIER_LIMITS tier []) f);
      cbn [snd]; try contradiction; lia.
Qed.

Lemma upgrade_never_takes_away_witness :
  get_user_subscription db_premium 1%N
  = Some (alice_subscription "premium" "active")
  /\ is_active (alice_subscription "premium" "active") = true
  /\ upd_subscription_tier
       (mkSubscriptionUpdate (Some "pro") None None None None None None)
     = Some "pro"
  /\ upd_status
       (mkSubscriptionUpdate (Some "pro") None None None None None None)
     = None
  /\ Dict.get tier_levels
       (subscription_tier (alice_subscription "premium" "active")) = Some 1
  /\ Dict.get tier_levels "pro" = Some 2
  /\ 1 <= 2
  /\ get_user_tier
       (exec (update_subscription 1%N
                (mkSubscriptionUpdate (Some "pro") None None None None None
                   None)) db_premium) 1%N = "pro"
  /\ (forall f,
        check_feature_access db_premium 1%N f = true ->
        check_feature_access
          (exec (update_subscription 1%N
                   (mkSubscriptionUpdate (Some "pro") None None None None
                      None None)) db_premium) 1%N f = true)
  /\ (forall f,
        snd (check_usage_limit clock0 db_premium 1%N f)
        <= snd (check_usage_limit clock0
                  (exec (update_subscription 1%N
                           (mkSubscriptionUpdate (Some "pro") None None None
                              None None None)) db_premium) 1%N f)).
Proof.
  do 6 (split; [reflexivity|]). split; [lia|].
  apply (upgrade_never_takes_away clock0 1%N
           (mkSubscriptionUpdate (Some "pro") None None None None None None)
           (alice_subscription "premium" "active") "pro" 1 2 db_premium);
    try reflexivity; lia.
Defined.

(** ** Calls that overlap *)

Lemma set_first_is_bump (p : FeatureUsage -> bool) (amount : Z)
    (rows : list FeatureUsage) (u : FeatureUsage) :
  find p rows = Some u ->
  set_first p (usage_count u + amount) rows = bump_first p amount rows.
Proof.
  induction rows as [|v rest IH]; simpl; [discriminate|].
  destruct (p v).
  - now intros [= ->].
  - intros H. now rewrite (IH H).
Qed.

Lemma find_set_first (uid : UUID) (feature : string) (day : date) (n : Z)
    (rows : list FeatureUsage) :
  find (usage_key uid feature day)
    (set_first (usage_key uid feature day) n rows)
  = option_map
      (fun u => mkFeatureUsage (fu_user_id u) (feature_name u)
                  (usage_date u) n)
      (find (usage_key uid feature day) rows).
Proof.
  induction rows as [|u rest IH]; simpl; [reflexivity|].
  destruct (usage_key uid feature day u) eqn:Hk; simpl.
  - unfold usage_key in *; simpl. now rewrite Hk.
  - rewrite Hk. exact IH.
Qed.

(** Run back to back, the two steps are [increment_usage]. *)
Lemma store_after_load (clk : Clock) (uid : UUID) (feature : string)
    (amount : Z) (db : DB) :
  store_usage clk uid feature amount (load_usage clk uid feature db) db
  = increment_usage clk uid feature amount db.
Proof.
  unfold store_usage, load_usage, increment_usage, bind, read, write, ret.
  destruct (query_usage db uid feature (today clk)) as [u|] eqn:Hq;
    [|reflexivity].
  unfold query_usage in Hq.
  now rewrite (set_first_is_bump _ amount _ u Hq).
Qed.

(** A call that runs alone, its three accesses one after the other, is
    [increment_and_check]. *)
Lemma call_alone_is_increment_and_check (clk : Clock) (uid : UUID)
    (feature : string) (amount : Z) (db : DB) :
  exists result db',
    increment_and_check clk uid feature amount db = (Return result, db')
    /\ run_schedule clk uid feature amount [0; 0; 0]%nat [Start] db
       = ([Finished result], db').
Proof.
  unfold increment_and_check, bind, read.
  cbn [run_schedule step_nth call_step].
  destruct (check_rate_limit clk db uid feature)
    as [[allowed remaining] metadata].
  destruct allowed.
  - cbn [run_schedule step_nth call_step].
    unfold exec. rewrite store_after_load.
    destruct (increment_usage_spec clk uid feature
                (Z.min amount remaining) db) as (db' & Hi & _).
    rewrite Hi. cbn [snd]. unfold ret.
    do 2 eexists. split; reflexivity.
  - cbn [run_schedule step_nth call_step]. unfold ret.
    do 2 eexists. split; reflexivity.
Qed.

(** Two increments of 1 whose queries both precede the writes: both load
    the same count, both write that count plus one, and one increment is
    lost. *)
Lemma interleaved_increments (clk : Clock) (uid : UUID) (feature : string)
    (db : DB) :
  let loaded := load_usage clk uid feature db in
  let db1 := exec (store_usage clk uid feature 1 loaded) db in
  let db2 := exec (store_usage clk uid feature 1 loaded) db1 in
  fst (store_usage clk uid feature 1 loaded db)
  = Return (counter clk db uid feature + 1)
  /\ fst (store_usage clk uid feature 1 loaded db1)
     = Return (counter clk db uid feature + 1)
  /\ counter clk db2 uid feature = counter clk db uid feature + 1.
Proof.
  cbv zeta.
  unfold load_usage, store_usage, exec, counter, used_today, bind, write, ret.
  unfold query_usage.
  destruct (find (usage_key uid feature (today clk)) (feature_usage db))
    as [u|] eqn:Hq; cbn [fst snd feature_usage set_feature_usage usage_count].
  - split; [reflexivity|]. split; [reflexivity|].
    rewrite !find_set_first, Hq. reflexivity.
  - split; [reflexivity|]. split; [reflexivity|].
    assert (H1 : find (usage_key uid feature (today clk))
                   (feature_usage db ++ [mkFeatureUsage uid feature
                                           (today clk) 1])
                 = Some (mkFeatureUsage uid feature (today clk) 1))
      by now rewrite (find_append_fresh _ _ _ _ _ Hq), usage_key_self.
    rewrite find_snoc, H1. reflexivity.
Qed.

(** C2 (code defect): the increment is a query and a later write-back of a
    value computed from what the query loaded, with nothing that keeps two
    calls apart.  Whenever the key has a row, two increments of 1 whose
    queries both precede the writes load the same count and both write
    that count plus one, so the counter gains 1, where the same two calls
    one after the other make it gain 2.  And four [increment_and_check]
    calls against a fresh key with limit 3 ("forum_threads" at the free
    tier), the first two one after the other and the last two overlapping
    as check, check, query, query, write, write, all report allowed and
    leave the counter at 3 in a table that still has one row for the key;
    the same four calls one after the other report three allowed and one
    denied. *)
Theorem overlapping_calls_lose_updates :
  (forall clk uid feature db u,
      load_usage clk uid feature db = Some u ->
      counter clk
        (exec (store_usage clk uid feature 1 (Some u))
           (exec (store_usage clk uid feature 1 (Some u)) db))
        uid feature
      = counter clk db uid feature + 1
      /\ fst (store_usage clk uid feature 1 (Some u) db)
         = Return (counter clk db uid feature + 1)
      /\ fst (store_usage clk uid feature 1 (Some u)
                (exec (store_usage clk uid feature 1 (Some u)) db))
         = Return (counter clk db uid feature + 1)
      /\ counter clk
           (exec (increment_usage clk uid feature 1)
              (exec (increment_usage clk uid feature 1) db))
           uid feature
         = counter clk db uid feature + 2)
  /\ (let '(calls, db') :=
        run_schedule clock0 1%N "ask_questions" 1 [0; 1; 0; 1; 0; 1]%nat
          [Start; Start] (db_asked 8) in
      map reported_allowed calls = [true; true]
      /\ db' = db_asked 9)
  /\ tier_limit (get_user_tier db_empty 1%N) "forum_threads" = Some 3
  /\ (let '(calls, db') :=
        run_schedule clock0 1%N "forum_threads" 1
          [0; 0; 0; 1; 1; 1; 2; 3; 2; 3; 2; 3]%nat
          [Start; Start; Start; Start] db_empty in
      map reported_allowed calls = [true; true; true; true]
      /\ counter clock0 db' 1%N "forum_threads" = 3
      /\ feature_usage db' = [mkFeatureUsage 1%N "forum_threads" 20000 3])
  /\ (let '(calls, db') :=
        run_schedule clock0 1%N "forum_threads" 1
          [0; 0; 0; 1; 1; 1; 2; 2; 2; 3; 3; 3]%nat
          [Start; Start; Start; Start] db_empty in
      map reported_allowed calls = [true; true; true; false]
      /\ counter clock0 db' 1%N "forum_threads" = 3).
Proof.
  split.
  - intros clk uid feature db u Hu.
    pose proof (interleaved_increments clk uid feature db) as H.
    cbv zeta in H. rewrite Hu in H. destruct H as (H1 & H2 & H3).
    repeat split; try assumption.
    destruct (increment_usage_spec clk uid feature 1 db)
      as (db1 & E1 & Hc1 & _).
    destruct (increment_usage_spec clk uid feature 1 db1)
      as (db2 & E2 & Hc2 & _).
    unfold exec. rewrite E1. cbn [snd]. rewrite E2. cbn [snd]. lia.
  - repeat split.
Qed.
